(** * GeoMaster: the right-triangle and trigonometric-ratio solvers of App.tsx

    A shallow embedding of [calculatePythagoras] and [calculateTrig]
    (src/App.tsx), the two event handlers that make up the calculation
    engine, together with the parts of the JavaScript runtime they call:
    IEEE-754 binary64 arithmetic, [Number.prototype.toFixed] and the
    template-literal conversion [Number::toString].

    The handlers are written once, over an interface of the runtime's
    numbers, and read at two instances of it:
    - [F64]: binary64, as the code runs (Rocq's primitive floats);
    - [Exact]: real numbers with one undefined value, the arithmetic the
      program's formulas denote, where rounding, overflow and underflow
      are absent. *)

From Stdlib Require Import ZArith String Ascii List Bool Lia.
From Stdlib Require Import Floats.
From Stdlib Require Import Reals Lra.
Import ListNotations.

Set Warnings "-inexact-float".
Local Open Scope string_scope.

(** ** Types of App.tsx *)

(** [type Side = 'a' | 'b' | 'c'] *)
Inductive Side : Type := SideA | SideB | SideC.

(** [interface CalculationStep { text: string; math?: string }] *)
Record CalculationStep : Type := { text : string; math : option string }.

(** The object a handler pushes on [steps]: both fields are always given. *)
Definition step (t m : string) : CalculationStep :=
  {| text := t; math := Some m |}.

(** [pythResult]: [{ val: number; steps: CalculationStep[] }] *)
Module Pyth.
Record Result (num : Type) : Type :=
{ val : num; steps : list CalculationStep }.
Arguments val {num} _.
Arguments steps {num} _.
End Pyth.

(** [trigResult]: [{ a, b, c, sin, cos, tan: number; steps }] *)
Module Trig.
Record Result (num : Type) : Type :=
{ a : num; b : num; c : num;
  sin : num; cos : num; tan : num;
  steps : list CalculationStep }.
Arguments a {num} _.
Arguments b {num} _.
Arguments c {num} _.
Arguments sin {num} _.
Arguments cos {num} _.
Arguments tan {num} _.
Arguments steps {num} _.
End Trig.

(** What one click on "Calcular" does: the handler falls off its end (or
    hits the bare [return]) without touching the state, shows the blocking
    [alert] and returns, or stores a new result with [setPythResult] /
    [setTrigResult]. *)
Inductive Outcome (R : Type) : Type :=
| Unchanged
| Alerted (msg : string)
| SetResult (r : R).
Arguments Unchanged {R}.
Arguments Alerted {R} msg.
Arguments SetResult {R} r.

(** ** The runtime's numbers *)

(** The operations of a JavaScript number the handlers use.  [Math.sqrt]
    stands with the arithmetic because IEEE-754 fixes its result;
    [toFixed x f] is [x.toFixed(f)] and [toString x] is what a template
    literal inserts for [x]. *)
Class JSNumber (num : Type) : Type :=
  { isNaN : num -> bool;
    lit : Z -> num;
    add : num -> num -> num;
    sub : num -> num -> num;
    mul : num -> num -> num;
    div : num -> num -> num;
    le : num -> num -> bool;
    ge : num -> num -> bool;
    Math_sqrt : num -> num;
    toFixed : num -> nat -> string;
    toString : num -> string }.

(** [Math.PI], [Math.sin], [Math.cos], [Math.tan]: the part of [Math]
    that ECMAScript leaves to the implementation's approximation. *)
Class JSMath (num : Type) : Type :=
  { Math_PI : num;
    Math_sin : num -> num;
    Math_cos : num -> num;
    Math_tan : num -> num }.

(** ** The two handlers *)

Section Handlers.
Context {num : Type} {N : JSNumber num}.

(** [calculatePythagoras].  Its arguments are the three numbers
    [parseFloat(pythA)], [parseFloat(pythB)], [parseFloat(pythC)] the
    handler starts from: NaN for a blank or non-numeric field. *)
Definition calculatePythagoras (a b c : num) : Outcome (Pyth.Result num) :=
  if negb (isNaN a) && negb (isNaN b) then
    let result := Math_sqrt (add (mul a a) (mul b b)) in
    SetResult {| Pyth.val := result; Pyth.steps :=
      [ step "Identificamos los catetos:"
             ("a = " ++ toString a ++ ", b = " ++ toString b);
        step "Usamos la fórmula:" "c = \sqrt{a^2 + b^2}";
        step "Sustituimos valores:"
             ("c = \sqrt{" ++ toString a ++ "^2 + " ++ toString b ++ "^2}");
        step "Calculamos cuadrados:"
             ("c = \sqrt{" ++ toFixed (mul a a) 2 ++ " + "
                           ++ toFixed (mul b b) 2 ++ "}");
        step "Sumamos:"
             ("c = \sqrt{" ++ toFixed (add (mul a a) (mul b b)) 2 ++ "}");
        step "Resultado final:" ("c \approx " ++ toFixed result 4) ] |}
  else if negb (isNaN a) && negb (isNaN c) then
    if le c a then Alerted "La hipotenusa debe ser mayor que el cateto."
    else
      let result := Math_sqrt (sub (mul c c) (mul a a)) in
      SetResult {| Pyth.val := result; Pyth.steps :=
        [ step "Identificamos los lados:"
               ("a = " ++ toString a ++ ", c = " ++ toString c);
          step "Despejamos b de la fórmula:" "b = \sqrt{c^2 - a^2}";
          step "Sustituimos valores:"
               ("b = \sqrt{" ++ toString c ++ "^2 - " ++ toString a ++ "^2}");
          step "Resultado final:" ("b \approx " ++ toFixed result 4) ] |}
  else if negb (isNaN b) && negb (isNaN c) then
    if le c b then Alerted "La hipotenusa debe ser mayor que el cateto."
    else
      let result := Math_sqrt (sub (mul c c) (mul b b)) in
      SetResult {| Pyth.val := result; Pyth.steps :=
        [ step "Identificamos los lados:"
               ("b = " ++ toString b ++ ", c = " ++ toString c);
          step "Despejamos a de la fórmula:" "a = \sqrt{c^2 - b^2}";
          step "Sustituimos valores:"
               ("a = \sqrt{" ++ toString c ++ "^2 - " ++ toString b ++ "^2}");
          step "Resultado final:" ("a \approx " ++ toFixed result 4) ] |}
  else Unchanged.

Context {M : JSMath num}.

(** [const angleRad = (angleDeg * Math.PI) / 180] *)
Definition angleRad (angleDeg : num) : num :=
  div (mul angleDeg Math_PI) (lit 180).

(** [calculateTrig].  [angleDeg] and [sideVal] are
    [parseFloat(trigAngle)] and [parseFloat(trigSideVal)];
    [trigSideType] is the state of the side selector. *)
Definition calculateTrig (angleDeg : num) (trigSideType : Side) (sideVal : num)
  : Outcome (Trig.Result num) :=
  if isNaN angleDeg || isNaN sideVal then Unchanged
  else if le angleDeg (lit 0) || ge angleDeg (lit 90) then
    Alerted "El ángulo debe estar entre 0° y 90°."
  else
    let angleRad := angleRad angleDeg in
    let '(a, b, c, steps) :=
      match trigSideType with
      | SideC =>
          let c := sideVal in
          let a := mul c (Math_sin angleRad) in
          let b := mul c (Math_cos angleRad) in
          (a, b, c,
           [ step "Dado Hipotenusa (c) y ángulo (α):"
                  ("c = " ++ toString c ++ ", \alpha = "
                          ++ toString angleDeg ++ "^\circ");
             step "Calculamos cateto opuesto (a):"
                  ("a = c \cdot \sin(\alpha) = " ++ toString c
                     ++ " \cdot \sin(" ++ toString angleDeg
                     ++ "^\circ) \approx " ++ toFixed a 4);
             step "Calculamos cateto adyacente (b):"
                  ("b = c \cdot \cos(\alpha) = " ++ toString c
                     ++ " \cdot \cos(" ++ toString angleDeg
                     ++ "^\circ) \approx " ++ toFixed b 4) ])
      | SideA =>
          let a := sideVal in
          let c := div a (Math_sin angleRad) in
          let b := div a (Math_tan angleRad) in
          (a, b, c,
           [ step "Dado Cateto Opuesto (a) y ángulo (α):"
                  ("a = " ++ toString a ++ ", \alpha = "
                          ++ toString angleDeg ++ "^\circ");
             step "Calculamos hipotenusa (c):"
                  ("c = a / \sin(\alpha) = " ++ toString a
                     ++ " / \sin(" ++ toString angleDeg
                     ++ "^\circ) \approx " ++ toFixed c 4);
             step "Calculamos cateto adyacente (b):"
                  ("b = a / \tan(\alpha) = " ++ toString a
                     ++ " / \tan(" ++ toString angleDeg
                     ++ "^\circ) \approx " ++ toFixed b 4) ])
      | SideB =>
          let b := sideVal in
          let c := div b (Math_cos angleRad) in
          let a := mul b (Math_tan angleRad) in
          (a, b, c,
           [ step "Dado Cateto Adyacente (b) y ángulo (α):"
                  ("b = " ++ toString b ++ ", \alpha = "
                          ++ toString angleDeg ++ "^\circ");
             step "Calculamos hipotenusa (c):"
                  ("c = b / \cos(\alpha) = " ++ toString b
                     ++ " / \cos(" ++ toString angleDeg
                     ++ "^\circ) \approx " ++ toFixed c 4);
             step "Calculamos cateto opuesto (a):"
                  ("a = b \cdot \tan(\alpha) = " ++ toString b
                     ++ " \cdot \tan(" ++ toString angleDeg
                     ++ "^\circ) \approx " ++ toFixed a 4) ])
      end in
    SetResult {| Trig.a := a; Trig.b := b; Trig.c := c;
                 Trig.sin := Math_sin angleRad;
                 Trig.cos := Math_cos angleRad;
                 Trig.tan := Math_tan angleRad;
                 Trig.steps := steps |}.
End Handlers.

(** ** Decimal text *)

Definition digit_char (d : Z) : ascii := ascii_of_nat (48 + Z.to_nat d).

Fixpoint digits_aux (fuel : nat) (n : Z) (acc : list ascii) : list ascii :=
  match fuel with
  | O => acc
  | S fuel' =>
      if (n <? 10)%Z then digit_char n :: acc
      else digits_aux fuel' (n / 10)%Z (digit_char (n mod 10) :: acc)
  end.

(** The decimal digits of a non-negative integer, most significant first
    (["0"] for zero). *)
Definition decimal_digits (n : Z) : list ascii :=
  digits_aux (S (Z.to_nat (Z.log2 n))) n [].

(** [Number.prototype.toFixed], from the integer [n] it has chosen: the
    digits of [n], padded with zeros on the left to [f + 1] characters, with
    a point before the last [f] of them. *)
Definition fixed_text (n : Z) (f : nat) : string :=
  let m := decimal_digits n in
  if Nat.eqb f 0 then string_of_list_ascii m
  else
    let m := (repeat "0"%char (S f - length m) ++ m)%list in
    let k := length m in
    string_of_list_ascii (firstn (k - f) m ++ "."%char :: skipn (k - f) m)%list.

(** [Number::toString], from the digits of [s] and the decimal exponent
    [n] it has chosen ([k] digits, value [s * 10^(n-k)]). *)
Definition format_number (ds : list ascii) (n : Z) : string :=
  let k := Z.of_nat (length ds) in
  if ((k <=? n) && (n <=? 21))%Z then
    string_of_list_ascii (ds ++ repeat "0"%char (Z.to_nat (n - k)))%list
  else if ((0 <? n) && (n <=? 21))%Z then
    string_of_list_ascii
      (firstn (Z.to_nat n) ds ++ "."%char :: skipn (Z.to_nat n) ds)%list
  else if ((-6 <? n) && (n <=? 0))%Z then
    string_of_list_ascii
      ("0"%char :: "."%char :: repeat "0"%char (Z.to_nat (- n)) ++ ds)%list
  else
    let e := (n - 1)%Z in
    let tail :=
      "e"%char :: (if (e <? 0)%Z then "-"%char else "+"%char)
              :: decimal_digits (Z.abs e) in
    match ds with
    | [] => ""
    | [d] => string_of_list_ascii (d :: tail)
    | d :: rest => string_of_list_ascii (d :: "."%char :: rest ++ tail)%list
    end.

(** ** Binary64: the numbers of the running program *)

Module F64.

(** The order of [s * 10^p] and [n * 2^e], by cross-multiplication. *)
Definition cmp_dec_bin (s p n e : Z) : comparison :=
  (s * 10 ^ Z.max p 0 * 2 ^ Z.max (- e) 0
     ?= n * 2 ^ Z.max e 0 * 10 ^ Z.max (- p) 0)%Z.

(** The integer nearest to [m * 2^e * 10^f], the larger one on a tie
    (step "let n be an integer for which n / 10^f - x is as close to
    zero as possible" of [toFixed]). *)
Definition nearest_scaled (m : positive) (e : Z) (f : nat) : Z :=
  let s := (Zpos m * 10 ^ Z.of_nat f)%Z in
  if (0 <=? e)%Z then (s * 2 ^ e)%Z
  else ((2 * s + 2 ^ (- e)) / 2 ^ (1 - e))%Z.

(** [n] with [10^(n-1) <= m * 2^e < 10^n]: searched upwards from an
    estimate that is never above it. *)
Fixpoint decade_from (fuel : nat) (n : Z) (m : positive) (e : Z) : Z :=
  match fuel with
  | O => n
  | S fuel' =>
      match cmp_dec_bin 1 n (Zpos m) e with
      | Gt => n
      | _ => decade_from fuel' (n + 1)%Z m e
      end
  end.

Definition decade (m : positive) (e : Z) : Z :=
  let l := (Z.log2 (Zpos m) + e)%Z in
  decade_from 8 (l * 30103 / 100000 - 1)%Z m e.

(** Does the decimal [s * 10^p] round to the double [m * 2^e]?  The
    doubles' neighbours are half an ulp away (a quarter below a power of
    two), and the ends of the interval round to it when [m] is even. *)
Definition rounds_to (s p : Z) (m : positive) (e : Z) : bool :=
  let below :=
    if ((Zpos m =? 2 ^ 52) && (-1074 <? e))%Z then (4 * Zpos m - 1)%Z
    else (4 * Zpos m - 2)%Z in
  let above := (4 * Zpos m + 2)%Z in
  let even := Z.even (Zpos m) in
  match cmp_dec_bin s p below (e - 2) with
  | Gt => true | Eq => even | Lt => false
  end
  &&
  match cmp_dec_bin s p above (e - 2) with
  | Lt => true | Eq => even | Gt => false
  end.

(** The shortest decimal that rounds to [m * 2^e], as [(s, n)] with value
    [s * 10^(n - k)], [k] the number of digits of [s]: the closest to the
    double among those of [k] digits, the even one on a tie. *)
Fixpoint shortest (fuel : nat) (k : Z) (n0 : Z) (m : positive) (e : Z)
  : Z * Z :=
  match fuel with
  | O => (0, 0)%Z
  | S fuel' =>
      let p := (n0 - k)%Z in
      let lo := (Zpos m * 2 ^ Z.max e 0 * 10 ^ Z.max (- p) 0
                 / (2 ^ Z.max (- e) 0 * 10 ^ Z.max p 0))%Z in
      let hi := (lo + 1)%Z in
      let pick (s : Z) := if (s =? 10 ^ k)%Z then (1, n0 + 1)%Z else (s, n0) in
      match rounds_to lo p m e, rounds_to hi p m e with
      | true, true =>
          match cmp_dec_bin (2 * lo + 1) p (2 * Zpos m) e with
          | Gt => pick lo
          | Lt => pick hi
          | Eq => if Z.even lo then pick lo else pick hi
          end
      | true, false => pick lo
      | false, true => pick hi
      | false, false => shortest fuel' (k + 1)%Z n0 m e
      end
  end.

Definition toString_finite (m : positive) (e : Z) : string :=
  let '(s, n) := shortest 17 1 (decade m e) m e in
  format_number (decimal_digits s) n.

(** [Number::toString(x, 10)] *)
Definition toString (x : float) : string :=
  match Prim2SF x with
  | S754_nan => "NaN"
  | S754_zero _ => "0"
  | S754_infinity s => (if s then "-" else "") ++ "Infinity"
  | S754_finite s m e => (if s then "-" else "") ++ toString_finite m e
  end.

(** [Number.prototype.toFixed(f)] *)
Definition toFixed (x : float) (f : nat) : string :=
  match Prim2SF x with
  | S754_nan => "NaN"
  | S754_infinity s => (if s then "-" else "") ++ "Infinity"
  | S754_zero _ => fixed_text 0 f
  | S754_finite s m e =>
      (if s then "-" else "") ++
      (if PrimFloat.leb 1e21 (PrimFloat.abs x) then toString_finite m e
       else fixed_text (nearest_scaled m e f) f)
  end.

(** A numeric literal of the source, an integer here. *)
Definition lit (z : Z) : float :=
  SF2Prim (binary_normalize prec emax z 0 false).

(** [Math.PI], the double nearest to the circle constant. *)
Definition PI : float := 0x1.921fb54442d18p+1%float.

End F64.

#[export] Instance F64_number : JSNumber float :=
  {| isNaN := PrimFloat.is_nan;
     lit := F64.lit;
     add := PrimFloat.add;
     sub := PrimFloat.sub;
     mul := PrimFloat.mul;
     div := PrimFloat.div;
     le := PrimFloat.leb;
     ge := fun x y => PrimFloat.leb y x;
     Math_sqrt := PrimFloat.sqrt;
     toFixed := F64.toFixed;
     toString := F64.toString |}.

(** The engine's [Math.sin], [Math.cos] and [Math.tan]: any three
    functions on doubles. *)
Record Libm : Type :=
  { libm_sin : float -> float;
    libm_cos : float -> float;
    libm_tan : float -> float }.

Definition F64_math (L : Libm) : JSMath float :=
  {| Math_PI := F64.PI;
     Math_sin := libm_sin L;
     Math_cos := libm_cos L;
     Math_tan := libm_tan L |}.

(** One engine to run closed examples on: Maclaurin polynomials in Horner
    form, within 1e-11 of the sine and the cosine on the first quadrant. *)
Module Sample.
Local Open Scope float_scope.

Definition sin (x : float) : float :=
  let x2 := x * x in
  x * (1 - x2 / 6 * (1 - x2 / 20 * (1 - x2 / 42 * (1 - x2 / 72 *
      (1 - x2 / 110 * (1 - x2 / 156 * (1 - x2 / 210))))))).

Definition cos (x : float) : float :=
  let x2 := x * x in
  1 - x2 / 2 * (1 - x2 / 12 * (1 - x2 / 30 * (1 - x2 / 56 *
      (1 - x2 / 90 * (1 - x2 / 132 * (1 - x2 / 182 * (1 - x2 / 240))))))).

Definition tan (x : float) : float := sin x / cos x.

Definition libm : Libm :=
  {| libm_sin := sin; libm_cos := cos; libm_tan := tan |}.

End Sample.

(** ** Exact arithmetic: the numbers the formulas denote *)

Module Exact.

(** A real number, or [None] where the runtime's operation has no real
    value: a square root of a negative number, a division by zero, a
    tangent at a pole.  [None] plays NaN. *)
Definition num : Type := option R.

Definition lift2 (f : R -> R -> R) (x y : num) : num :=
  match x, y with
  | Some u, Some v => Some (f u v)
  | _, _ => None
  end.

Definition lift1 (f : R -> R) (x : num) : num :=
  match x with
  | Some u => Some (f u)
  | None => None
  end.

Definition isNaN (x : num) : bool :=
  match x with
  | Some _ => false
  | None => true
  end.

Definition div (x y : num) : num :=
  match x, y with
  | Some u, Some v => if Req_dec_T v 0 then None else Some (u / v)%R
  | _, _ => None
  end.

Definition le (x y : num) : bool :=
  match x, y with
  | Some u, Some v => if Rle_dec u v then true else false
  | _, _ => false
  end.

Definition sqrt (x : num) : num :=
  match x with
  | Some u => if Rlt_dec u 0 then None else Some (R_sqrt.sqrt u)
  | None => None
  end.

Definition tan (x : num) : num :=
  match x with
  | Some u => if Req_dec_T (Rtrigo_def.cos u) 0 then None
              else Some (Rtrigo1.tan u)
  | None => None
  end.

Section Text.
(** The text of a real number that is not an integer multiple of a
    power of ten has no end: how [Number::toString] prints is left
    open here. *)
Variable show : R -> string.

Definition toString (x : num) : string :=
  match x with
  | Some u => show u
  | None => "NaN"
  end.

(** [Number.prototype.toFixed(f)] on a real number: the nearest
    multiple of [10^-f], the larger in magnitude on a tie. *)
Definition toFixed (x : num) (f : nat) : string :=
  match x with
  | None => "NaN"
  | Some u =>
      (if Rlt_dec u 0 then "-" else "") ++
      (if Rle_dec 1e21 (Rabs u) then show (Rabs u)
       else fixed_text (Int_part (Rabs u * 10 ^ f + / 2)) f)
  end.

Definition number : JSNumber num :=
  Build_JSNumber num
    isNaN (fun z => Some (IZR z))
    (lift2 Rplus) (lift2 Rminus) (lift2 Rmult) div
    le (fun x y => le y x)
    sqrt toFixed toString.
End Text.

Definition math : JSMath num :=
  Build_JSMath num
    (Some PI) (lift1 Rtrigo_def.sin) (lift1 Rtrigo_def.cos) tan.

End Exact.

(** ** Vocabulary of the statements *)

Section Vocabulary.
Context {num : Type} {N : JSNumber num}.

(** A field is present when its parsed value is a number. *)
Definition present (x : num) : bool := negb (isNaN x).

Definition count_present (a b c : num) : nat :=
  (if present a then 1 else 0) + (if present b then 1 else 0)
  + (if present c then 1 else 0).

(** The value a result carries, when the handler stored one. *)
Definition pyth_value (o : Outcome (Pyth.Result num)) : option num :=
  match o with
  | SetResult r => Some (Pyth.val r)
  | _ => None
  end.

(** The derivation a result carries, when the handler stored one. *)
Definition pyth_steps (o : Outcome (Pyth.Result num)) : list CalculationStep :=
  match o with
  | SetResult r => Pyth.steps r
  | _ => []
  end.

(** The five numbers of a trig result as the page shows them, each with
    [toFixed(4)]: a, b, sin, cos, tan. *)
Definition shown_fields (o : Outcome (Trig.Result num)) : list string :=
  match o with
  | SetResult r =>
      [ toFixed (Trig.a r) 4; toFixed (Trig.b r) 4; toFixed (Trig.sin r) 4;
        toFixed (Trig.cos r) 4; toFixed (Trig.tan r) 4 ]
  | _ => []
  end.

(** The angle test of the source: [angleDeg <= 0 || angleDeg >= 90]. *)
Definition angle_rejected (angleDeg : num) : bool :=
  le angleDeg (lit 0) || ge angleDeg (lit 90).

Context {M : JSMath num}.

(** The sides the three branches compute, as the source writes them. *)
Definition sides_of (side : Side) (theta sideVal : num) (r : Trig.Result num)
  : Prop :=
  match side with
  | SideC => Trig.c r = sideVal /\
             Trig.a r = mul sideVal (Math_sin theta) /\
             Trig.b r = mul sideVal (Math_cos theta)
  | SideA => Trig.a r = sideVal /\
             Trig.c r = div sideVal (Math_sin theta) /\
             Trig.b r = div sideVal (Math_tan theta)
  | SideB => Trig.b r = sideVal /\
             Trig.c r = div sideVal (Math_cos theta) /\
             Trig.a r = mul sideVal (Math_tan theta)
  end.

(** The same equations between the fields of one result. *)
Definition consistent (side : Side) (r : Trig.Result num) : Prop :=
  match side with
  | SideC => Trig.a r = mul (Trig.c r) (Trig.sin r) /\
             Trig.b r = mul (Trig.c r) (Trig.cos r)
  | SideA => Trig.c r = div (Trig.a r) (Trig.sin r) /\
             Trig.b r = div (Trig.a r) (Trig.tan r)
  | SideB => Trig.c r = div (Trig.b r) (Trig.cos r) /\
             Trig.a r = mul (Trig.b r) (Trig.tan r)
  end.

(** No field of a trig result is NaN. *)
Definition all_numbers (r : Trig.Result num) : bool :=
  negb (isNaN (Trig.a r)) && negb (isNaN (Trig.b r)) && negb (isNaN (Trig.c r))
  && negb (isNaN (Trig.sin r)) && negb (isNaN (Trig.cos r))
  && negb (isNaN (Trig.tan r)).
End Vocabulary.

(** The two alerts. *)
Definition invalidGeometry : string :=
  "La hipotenusa debe ser mayor que el cateto.".

Definition invalidAngle : string :=
  "El ángulo debe estar entre 0° y 90°.".

(** The headings of the six-step and of the two four-step derivations. *)
Definition headings_c : list string :=
  [ "Identificamos los catetos:"; "Usamos la fórmula:";
    "Sustituimos valores:"; "Calculamos cuadrados:"; "Sumamos:";
    "Resultado final:" ].

Definition is_digit (ch : ascii) : bool :=
  (48 <=? nat_of_ascii ch)%nat && (nat_of_ascii ch <=? 57)%nat.

Definition strip_sign (cs : list ascii) : list ascii :=
  match cs with
  | ch :: t => if Ascii.eqb ch "-"%char then t else cs
  | [] => []
  end.

(** Text with exactly [f] decimal places: an optional sign, at least one
    digit, a point, [f] digits. *)
Definition fixed_point_shape (f : nat) (s : string) : bool :=
  let cs := strip_sign (list_ascii_of_string s) in
  let i := (length cs - S f)%nat in
  match skipn i cs with
  | "."%char :: fp =>
      negb (i =? 0)%nat && (length fp =? f)%nat
      && forallb is_digit (firstn i cs) && forallb is_digit fp
  | _ => false
  end.

(** A rounded value that is not NaN and has the sign [s]. *)
Definition signed_as (s : bool) (x : spec_float) : Prop :=
  match x with
  | S754_nan => False
  | S754_zero s' | S754_infinity s' | S754_finite s' _ _ => s' = s
  end.

(** Zero, a positive number or plus infinity. *)
Definition SF_nonneg (x : spec_float) : Prop := signed_as false x.

(** The smallest positive double, 2^-1074 (printed 5e-324). *)
Definition tiny : float := 0x1p-1074%float.

(** A leg that, when present, is not negative. *)
Definition nonneg_leg (x : Exact.num) : Prop :=
  match x with
  | Some u => (0 <= u)%R
  | None => True
  end.

(** A printer of real numbers for closed examples: it prints nothing. *)
Definition mute : R -> string := fun _ => "".

(** ** The rest of the component: coercions, the diagram, the page *)

(** What the page needs of a number besides the handlers' operations:
    the NaN [parseFloat] gives for a blank field, ToBoolean (the left
    operand of [||]: false for 0, -0 and NaN) and [Math.max] of three
    numbers. *)
Class JSValue (num : Type) : Type :=
  { Number_NaN : num;
    truthy : num -> bool;
    Math_max : num -> num -> num -> num }.

(** [Math.max] of two doubles: NaN if either is, and +0 above -0. *)
Definition F64_max2 (x y : float) : float :=
  if PrimFloat.is_nan x || PrimFloat.is_nan y then PrimFloat.nan
  else if PrimFloat.ltb x y then y
  else if PrimFloat.ltb y x then x
  else if PrimFloat.get_sign x then y else x.

#[export] Instance F64_value : JSValue float :=
  {| Number_NaN := PrimFloat.nan;
     truthy := fun x => negb (PrimFloat.is_nan x || PrimFloat.is_zero x);
     Math_max := fun x y z => F64_max2 (F64_max2 x y) z |}.

Definition Exact_truthy (x : Exact.num) : bool :=
  match x with
  | Some u => if Req_dec_T u 0 then false else true
  | None => false
  end.

Definition Exact_value : JSValue Exact.num :=
  {| Number_NaN := None;
     truthy := Exact_truthy;
     Math_max := fun x y z => Exact.lift2 Rmax (Exact.lift2 Rmax x y) z |}.

(** [type] of [activeTab]: ['pythagoras' | 'trig'] *)
Inductive Tab : Type := TabPythagoras | TabTrig.

(** What [TriangleVisualizer] computes before it renders: the scaling, the
    path of the triangle, where the four labels are anchored and what the
    labels and the three tiles read. *)
Record Diagram (num : Type) : Type :=
  { maxSide : num;
    scale : num;
    width : num;
    height : num;
    pathData : string;
    at_b : num * num;
    at_a : num * num;
    at_c : num * num;
    at_alpha : num * num;
    label_b : string;
    label_a : string;
    label_c : string;
    label_alpha : option string;
    tile_a : string;
    tile_b : string;
    tile_c : string }.
Arguments maxSide {num} _.
Arguments scale {num} _.
Arguments width {num} _.
Arguments height {num} _.
Arguments pathData {num} _.
Arguments at_b {num} _.
Arguments at_a {num} _.
Arguments at_c {num} _.
Arguments at_alpha {num} _.
Arguments label_b {num} _.
Arguments label_a {num} _.
Arguments label_c {num} _.
Arguments label_alpha {num} _.
Arguments tile_a {num} _.
Arguments tile_b {num} _.
Arguments tile_c {num} _.

(** The state of [App]: one field per [useState].  A text field is kept as
    the number [parseFloat] reads from it, the only way the component reads
    it back. *)
Record AppState (num : Type) : Type :=
  { activeTab : Tab;
    darkMode : bool;
    showReview : bool;
    copied : bool;
    pythA : num;
    pythB : num;
    pythC : num;
    pythResult : option (Pyth.Result num);
    trigAngle : num;
    trigSideType : Side;
    trigSideVal : num;
    trigResult : option (Trig.Result num) }.
Arguments activeTab {num} _.
Arguments darkMode {num} _.
Arguments showReview {num} _.
Arguments copied {num} _.
Arguments pythA {num} _.
Arguments pythB {num} _.
Arguments pythC {num} _.
Arguments pythResult {num} _.
Arguments trigAngle {num} _.
Arguments trigSideType {num} _.
Arguments trigSideVal {num} _.
Arguments trigResult {num} _.

(** What the user and the timer can do to the page. *)
Inductive Event (num : Type) : Type :=
| SetActiveTab (t : Tab)
| ToggleDarkMode
| SetShowReview (b : bool)
| SetPythA (x : num)
| SetPythB (x : num)
| SetPythC (x : num)
| SetTrigAngle (x : num)
| SetTrigSideType (s : Side)
| SetTrigSideVal (x : num)
| ClickPythagoras
| ClickTrig
| ClickCopy
| CopiedTimeout.
Arguments SetActiveTab {num} t.
Arguments ToggleDarkMode {num}.
Arguments SetShowReview {num} b.
Arguments SetPythA {num} x.
Arguments SetPythB {num} x.
Arguments SetPythC {num} x.
Arguments SetTrigAngle {num} x.
Arguments SetTrigSideType {num} s.
Arguments SetTrigSideVal {num} x.
Arguments ClickPythagoras {num}.
Arguments ClickTrig {num}.
Arguments ClickCopy {num}.
Arguments CopiedTimeout {num}.

(** What an event does outside the state. *)
Inductive Effect : Type :=
| Alert (msg : string)
| ClipboardWrite (txt : string).

(** The line feed of [join('\n')]. *)
Definition newline : string := String (ascii_of_nat 10) "".

(** [`${s.text} ${s.math || ''}`] *)
Definition copy_line (s : CalculationStep) : string :=
  text s ++ " " ++
  match math s with
  | Some m => if String.eqb m "" then "" else m
  | None => ""
  end.

(** [steps.map(s => ...).join('\n')] *)
Definition copy_text (steps : list CalculationStep) : string :=
  String.concat newline (map copy_line steps).

Section Page.
Context {num : Type} {N : JSNumber num} {M : JSMath num} {V : JSValue num}.

(** [x || y] on numbers. *)
Definition or_num (x y : num) : num := if truthy x then x else y.

(** [r?.field || y]: [undefined || y] is [y]. *)
Definition opt_or (x : option num) (y : num) : num :=
  match x with
  | Some v => or_num v y
  | None => y
  end.

(** [TriangleVisualizer], up to the JSX. *)
Definition TriangleVisualizer (a b c : num) (angleA : option num)
  : Diagram num :=
  let maxSide :=
    or_num (Math_max a b (if isNaN c then lit 0 else c)) (lit 1) in
  let scale := div (lit 150) maxSide in
  let width := mul b scale in
  let height := mul a scale in
  let pad := lit 25 in
  {| maxSide := maxSide;
     scale := scale;
     width := width;
     height := height;
     pathData :=
       "M " ++ toString pad ++ " " ++ toString (sub (lit 200) pad)
       ++ " L " ++ toString (add pad width) ++ " "
       ++ toString (sub (lit 200) pad)
       ++ " L " ++ toString pad ++ " "
       ++ toString (sub (sub (lit 200) pad) height) ++ " Z";
     at_b := (add pad (div width (lit 2)), add (sub (lit 200) pad) (lit 18));
     at_a := (sub pad (lit 18),
              sub (sub (lit 200) pad) (div height (lit 2)));
     at_c := (add (add pad (div width (lit 2))) (lit 10),
              sub (sub (sub (lit 200) pad) (div height (lit 2))) (lit 10));
     at_alpha := (sub (add pad width) (lit 25), sub (sub (lit 200) pad) (lit 5));
     label_b := "b = " ++ toFixed b 1;
     label_a := "a = " ++ toFixed a 1;
     label_c := "c = " ++ toFixed c 1;
     label_alpha :=
       match angleA with
       | Some g => Some ("α = " ++ toFixed g 1 ++ "°")
       | None => None
       end;
     tile_a := toFixed a 2;
     tile_b := toFixed b 2;
     tile_c := toFixed c 2 |}.

(** The props [App] passes to [TriangleVisualizer]. *)
Definition visualizerProps (st : AppState num)
  : num * num * num * option num :=
  match activeTab st with
  | TabPythagoras =>
      (or_num (pythA st) (lit 0),
       or_num (pythB st) (lit 0),
       or_num (opt_or (option_map Pyth.val (pythResult st)) (pythC st)) (lit 0),
       None)
  | TabTrig =>
      (opt_or (option_map Trig.a (trigResult st)) (lit 0),
       opt_or (option_map Trig.b (trigResult st)) (lit 0),
       opt_or (option_map Trig.c (trigResult st)) (lit 0),
       Some (trigAngle st))
  end.

Definition drawn (st : AppState num) : Diagram num :=
  let '(a, b, c, angleA) := visualizerProps st in
  TriangleVisualizer a b c angleA.

(** The state [App] starts in. *)
Definition initialState : AppState num :=
  {| activeTab := TabPythagoras;
     darkMode := false;
     showReview := false;
     copied := false;
     pythA := Number_NaN;
     pythB := Number_NaN;
     pythC := Number_NaN;
     pythResult := None;
     trigAngle := Number_NaN;
     trigSideType := SideC;
     trigSideVal := Number_NaN;
     trigResult := None |}.

Definition with_pythResult (st : AppState num) (r : Pyth.Result num)
  : AppState num :=
  {| activeTab := activeTab st; darkMode := darkMode st;
     showReview := showReview st; copied := copied st;
     pythA := pythA st; pythB := pythB st; pythC := pythC st;
     pythResult := Some r;
     trigAngle := trigAngle st; trigSideType := trigSideType st;
     trigSideVal := trigSideVal st; trigResult := trigResult st |}.

Definition with_trigResult (st : AppState num) (r : Trig.Result num)
  : AppState num :=
  {| activeTab := activeTab st; darkMode := darkMode st;
     showReview := showReview st; copied := copied st;
     pythA := pythA st; pythB := pythB st; pythC := pythC st;
     pythResult := pythResult st;
     trigAngle := trigAngle st; trigSideType := trigSideType st;
     trigSideVal := trigSideVal st; trigResult := Some r |}.

Definition with_copied (st : AppState num) (b : bool) : AppState num :=
  {| activeTab := activeTab st; darkMode := darkMode st;
     showReview := showReview st; copied := b;
     pythA := pythA st; pythB := pythB st; pythC := pythC st;
     pythResult := pythResult st;
     trigAngle := trigAngle st; trigSideType := trigSideType st;
     trigSideVal := trigSideVal st; trigResult := trigResult st |}.

(** The text [handleCopy] builds: [undefined] when the active tab has no
    result. *)
Definition copy_source (st : AppState num) : option string :=
  match activeTab st with
  | TabPythagoras =>
      option_map (fun r => copy_text (Pyth.steps r)) (pythResult st)
  | TabTrig =>
      option_map (fun r => copy_text (Trig.steps r)) (trigResult st)
  end.

(** [handleCopy]: [if (text) { writeText(text); setCopied(true); ... }]. *)
Definition handleCopy (st : AppState num) : AppState num * list Effect :=
  match copy_source st with
  | Some txt =>
      if String.eqb txt "" then (st, [])
      else (with_copied st true, [ClipboardWrite txt])
  | None => (st, [])
  end.

(** One event of the page: the new state and what happened outside it. *)
Definition step_page (st : AppState num) (e : Event num)
  : AppState num * list Effect :=
  match e with
  | SetActiveTab t =>
      ({| activeTab := t; darkMode := darkMode st;
          showReview := showReview st; copied := copied st;
          pythA := pythA st; pythB := pythB st; pythC := pythC st;
          pythResult := pythResult st;
          trigAngle := trigAngle st; trigSideType := trigSideType st;
          trigSideVal := trigSideVal st; trigResult := trigResult st |}, [])
  | ToggleDarkMode =>
      ({| activeTab := activeTab st; darkMode := negb (darkMode st);
          showReview := showReview st; copied := copied st;
          pythA := pythA st; pythB := pythB st; pythC := pythC st;
          pythResult := pythResult st;
          trigAngle := trigAngle st; trigSideType := trigSideType st;
          trigSideVal := trigSideVal st; trigResult := trigResult st |}, [])
  | SetShowReview b =>
      ({| activeTab := activeTab st; darkMode := darkMode st;
          showReview := b; copied := copied st;
          pythA := pythA st; pythB := pythB st; pythC := pythC st;
          pythResult := pythResult st;
          trigAngle := trigAngle st; trigSideType := trigSideType st;
          trigSideVal := trigSideVal st; trigResult := trigResult st |}, [])
  | SetPythA x =>
      ({| activeTab := activeTab st; darkMode := darkMode st;
          showReview := showReview st; copied := copied st;
          pythA := x; pythB := pythB st; pythC := pythC st;
          pythResult := pythResult st;
          trigAngle := trigAngle st; trigSideType := trigSideType st;
          trigSideVal := trigSideVal st; trigResult := trigResult st |}, [])
  | SetPythB x =>
      ({| activeTab := activeTab st; darkMode := darkMode st;
          showReview := showReview st; copied := copied st;
          pythA := pythA st; pythB := x; pythC := pythC st;
          pythResult := pythResult st;
          trigAngle := trigAngle st; trigSideType := trigSideType st;
          trigSideVal := trigSideVal st; trigResult := trigResult st |}, [])
  | SetPythC x =>
      ({| activeTab := activeTab st; darkMode := darkMode st;
          showReview := showReview st; copied := copied st;
          pythA := pythA st; pythB := pythB st; pythC := x;
          pythResult := pythResult st;
          trigAngle := trigAngle st; trigSideType := trigSideType st;
          trigSideVal := trigSideVal st; trigResult := trigResult st |}, [])
  | SetTrigAngle x =>
      ({| activeTab := activeTab st; darkMode := darkMode st;
          showReview := showReview st; copied := copied st;
          pythA := pythA st; pythB := pythB st; pythC := pythC st;
          pythResult := pythResult st;
          trigAngle := x; trigSideType := trigSideType st;
          trigSideVal := trigSideVal st; trigResult := trigResult st |}, [])
  | SetTrigSideType s =>
      ({| activeTab := activeTab st; darkMode := darkMode st;
          showReview := showReview st; copied := copied st;
          pythA := pythA st; pythB := pythB st; pythC := pythC st;
          pythResult := pythResult st;
          trigAngle := trigAngle st; trigSideType := s;
          trigSideVal := trigSideVal st; trigResult := trigResult st |}, [])
  | SetTrigSideVal x =>
      ({| activeTab := activeTab st; darkMode := darkMode st;
          showReview := showReview st; copied := copied st;
          pythA := pythA st; pythB := pythB st; pythC := pythC st;
          pythResult := pythResult st;
          trigAngle := trigAngle st; trigSideType := trigSideType st;
          trigSideVal := x; trigResult := trigResult st |}, [])
  | ClickPythagoras =>
      match calculatePythagoras (pythA st) (pythB st) (pythC st) with
      | Unchanged => (st, [])
      | Alerted msg => (st, [Alert msg])
      | SetResult r => (with_pythResult st r, [])
      end
  | ClickTrig =>
      match calculateTrig (trigAngle st) (trigSideType st) (trigSideVal st) with
      | Unchanged => (st, [])
      | Alerted msg => (st, [Alert msg])
      | SetResult r => (with_trigResult st r, [])
      end
  | ClickCopy => handleCopy st
  | CopiedTimeout => (with_copied st false, [])
  end.

(** The page after a run of events, and everything that happened outside
    it, in order. *)
Fixpoint run_page (st : AppState num) (es : list (Event num))
  : AppState num * list Effect :=
  match es with
  | [] => (st, [])
  | e :: es' =>
      let '(st1, out1) := step_page st e in
      let '(st2, out2) := run_page st1 es' in
      (st2, (out1 ++ out2)%list)
  end.

(** A state the page can be in. *)
Definition reachable (st : AppState num) : Prop :=
  exists es, fst (run_page initialState es) = st.

(** A step of a derivation as the handlers build them: with a formula, not
    an empty one. *)
Definition has_math (s : CalculationStep) : Prop :=
  exists m, math s = Some m /\ m <> "".

(** Every stored result is one a handler built. *)
Definition from_handlers (st : AppState num) : Prop :=
  (forall r, pythResult st = Some r ->
     exists a b c, calculatePythagoras a b c = SetResult r) /\
  (forall r, trigResult st = Some r ->
     exists angleDeg side sideVal,
       calculateTrig angleDeg side sideVal = SetResult r).

(** The derivation shown on the active tab, when it has a result. *)
Definition active_steps (st : AppState num) : option (list CalculationStep) :=
  match activeTab st with
  | TabPythagoras => option_map Pyth.steps (pythResult st)
  | TabTrig => option_map Trig.steps (trigResult st)
  end.
End Page.

(** A point of the 200 by 200 [viewBox] of the diagram. *)
Definition in_viewbox (p : Exact.num * Exact.num) : Prop :=
  match p with
  | (Some x, Some y) => (0 <= x <= 200)%R /\ (0 <= y <= 200)%R
  | _ => False
  end.

(** ** Control flow of [calculatePythagoras], for any numbers *)

Section PythagorasFlow.
Context {num : Type} {N : JSNumber num}.
Implicit Types a b c : num.

Lemma pyth_ab a b c :
  isNaN a = false -> isNaN b = false ->
  calculatePythagoras a b c =
  SetResult
    {| Pyth.val := Math_sqrt (add (mul a a) (mul b b));
       Pyth.steps :=
         [ step "Identificamos los catetos:"
                ("a = " ++ toString a ++ ", b = " ++ toString b);
           step "Usamos la fórmula:" "c = \sqrt{a^2 + b^2}";
           step "Sustituimos valores:"
                ("c = \sqrt{" ++ toString a ++ "^2 + " ++ toString b ++ "^2}");
           step "Calculamos cuadrados:"
                ("c = \sqrt{" ++ toFixed (mul a a) 2 ++ " + "
                              ++ toFixed (mul b b) 2 ++ "}");
           step "Sumamos:"
                ("c = \sqrt{" ++ toFixed (add (mul a a) (mul b b)) 2 ++ "}");
           step "Resultado final:"
                ("c \approx "
                   ++ toFixed (Math_sqrt (add (mul a a) (mul b b))) 4) ] |}.
Proof.
  intros Ha Hb. unfold calculatePythagoras. rewrite Ha, Hb. reflexivity.
Qed.

Lemma pyth_ac a b c :
  isNaN a = false -> isNaN b = true -> isNaN c = false ->
  calculatePythagoras a b c =
  if le c a then Alerted invalidGeometry
  else
    SetResult
      {| Pyth.val := Math_sqrt (sub (mul c c) (mul a a));
         Pyth.steps :=
           [ step "Identificamos los lados:"
                  ("a = " ++ toString a ++ ", c = " ++ toString c);
             step "Despejamos b de la fórmula:" "b = \sqrt{c^2 - a^2}";
             step "Sustituimos valores:"
                  ("b = \sqrt{" ++ toString c ++ "^2 - " ++ toString a ++ "^2}");
             step "Resultado final:"
                  ("b \approx "
                     ++ toFixed (Math_sqrt (sub (mul c c) (mul a a))) 4) ] |}.
Proof.
  intros Ha Hb Hc. unfold calculatePythagoras. rewrite Ha, Hb, Hc. reflexivity.
Qed.

Lemma pyth_bc a b c :
  isNaN a = true -> isNaN b = false -> isNaN c = false ->
  calculatePythagoras a b c =
  if le c b then Alerted invalidGeometry
  else
    SetResult
      {| Pyth.val := Math_sqrt (sub (mul c c) (mul b b));
         Pyth.steps :=
           [ step "Identificamos los lados:"
                  ("b = " ++ toString b ++ ", c = " ++ toString c);
             step "Despejamos a de la fórmula:" "a = \sqrt{c^2 - b^2}";
             step "Sustituimos valores:"
                  ("a = \sqrt{" ++ toString c ++ "^2 - " ++ toString b ++ "^2}");
             step "Resultado final:"
                  ("a \approx "
                     ++ toFixed (Math_sqrt (sub (mul c c) (mul b b))) 4) ] |}.
Proof.
  intros Ha Hb Hc. unfold calculatePythagoras. rewrite Ha, Hb, Hc. reflexivity.
Qed.

(** A stored result comes from one of the three branches. *)
Lemma pyth_stored_inv a b c r :
  calculatePythagoras a b c = SetResult r ->
  (isNaN a = false /\ isNaN b = false /\
   Pyth.val r = Math_sqrt (add (mul a a) (mul b b))) \/
  (isNaN a = false /\ isNaN b = true /\ isNaN c = false /\ le c a = false /\
   Pyth.val r = Math_sqrt (sub (mul c c) (mul a a))) \/
  (isNaN a = true /\ isNaN b = false /\ isNaN c = false /\ le c b = false /\
   Pyth.val r = Math_sqrt (sub (mul c c) (mul b b))).
Proof.
  intros E.
  destruct (isNaN a) eqn:Ha, (isNaN b) eqn:Hb.
  - unfold calculatePythagoras in E. rewrite Ha, Hb in E.
    cbn [negb andb] in E. discriminate.
  - destruct (isNaN c) eqn:Hc.
    + unfold calculatePythagoras in E. rewrite Ha, Hb, Hc in E.
      cbn [negb andb] in E. discriminate.
    + rewrite (pyth_bc a b c Ha Hb Hc) in E.
      destruct (le c b); [ discriminate | ].
      injection E as <-. right; right. auto.
  - destruct (isNaN c) eqn:Hc.
    + unfold calculatePythagoras in E. rewrite Ha, Hb, Hc in E.
      cbn [negb andb] in E. discriminate.
    + rewrite (pyth_ac a b c Ha Hb Hc) in E.
      destruct (le c a); [ discriminate | ].
      injection E as <-. right; left. auto.
  - rewrite (pyth_ab a b c Ha Hb) in E. injection E as <-. left. auto.
Qed.
End PythagorasFlow.

(** ** Control flow of [calculateTrig], for any numbers *)

Section TrigFlow.
Context {num : Type} {N : JSNumber num} {M : JSMath num}.
Implicit Types angleDeg sideVal : num.

Lemma trig_unfold angleDeg side sideVal :
  isNaN angleDeg = false -> isNaN sideVal = false ->
  angle_rejected angleDeg = false ->
  exists r,
    calculateTrig angleDeg side sideVal = SetResult r /\
    sides_of side (angleRad angleDeg) sideVal r /\
    Trig.sin r = Math_sin (angleRad angleDeg) /\
    Trig.cos r = Math_cos (angleRad angleDeg) /\
    Trig.tan r = Math_tan (angleRad angleDeg) /\
    length (Trig.steps r) = 3%nat.
Proof.
  intros Ha Hv Hr. unfold calculateTrig.
  unfold angle_rejected in Hr. rewrite Ha, Hv, Hr. cbv beta iota zeta.
  destruct side; (eexists; split; [ reflexivity | ]);
    cbn [sides_of Trig.a Trig.b Trig.c Trig.sin Trig.cos Trig.tan
         Trig.steps length];
    repeat split; reflexivity.
Qed.

Lemma trig_stored_inv angleDeg side sideVal r :
  calculateTrig angleDeg side sideVal = SetResult r ->
  isNaN angleDeg = false /\ isNaN sideVal = false /\
  angle_rejected angleDeg = false.
Proof.
  unfold calculateTrig, angle_rejected.
  destruct (isNaN angleDeg); [ discriminate | ].
  destruct (isNaN sideVal); [ discriminate | ].
  cbn [orb].
  destruct (le angleDeg (lit 0) || ge angleDeg (lit 90)); [ discriminate | ].
  auto.
Qed.

Lemma trig_guard_cases angleDeg side sideVal :
  (isNaN angleDeg || isNaN sideVal = true ->
   calculateTrig angleDeg side sideVal = Unchanged) /\
  (isNaN angleDeg = false -> isNaN sideVal = false ->
   (calculateTrig angleDeg side sideVal = Alerted invalidAngle
    <-> angle_rejected angleDeg = true) /\
   ((exists r, calculateTrig angleDeg side sideVal = SetResult r)
    <-> angle_rejected angleDeg = false)).
Proof.
  split.
  - intros H. unfold calculateTrig. now rewrite H.
  - intros Ha Hv. destruct (angle_rejected angleDeg) eqn:Hr.
    + assert (E : calculateTrig angleDeg side sideVal = Alerted invalidAngle).
      { unfold calculateTrig. unfold angle_rejected in Hr.
        now rewrite Ha, Hv, Hr. }
      rewrite E. split; split; intros H; try reflexivity; try discriminate.
      destruct H as [r Hr']; discriminate.
    + destruct (trig_unfold angleDeg side sideVal Ha Hv Hr) as [r [E _]].
      rewrite E. split; split; intros H; try reflexivity; try discriminate.
      now exists r.
Qed.
End TrigFlow.

(** ** Binary64: rounding never invents NaN *)

Lemma shr_1_nonneg mrs : (0 <= shr_m mrs)%Z -> (0 <= shr_m (shr_1 mrs))%Z.
Proof.
  destruct mrs as [m r s]. cbn [shr_m]. intros H.
  destruct m as [| p | p]; [ | destruct p | lia ]; cbn; lia.
Qed.

Lemma iter_shr_1_nonneg p : forall mrs,
  (0 <= shr_m mrs)%Z -> (0 <= shr_m (SpecFloat.iter_pos shr_1 p mrs))%Z.
Proof.
  induction p as [p IH | p IH |]; intros mrs H; cbn [SpecFloat.iter_pos].
  - apply IH, IH, shr_1_nonneg, H.
  - apply IH, IH, H.
  - apply shr_1_nonneg, H.
Qed.

Lemma shr_fexp_nonneg prec emax m e l :
  (0 <= m)%Z -> (0 <= shr_m (fst (shr_fexp prec emax m e l)))%Z.
Proof.
  intros H. unfold shr_fexp, shr.
  assert (H0 : (0 <= shr_m (shr_record_of_loc m l))%Z).
  { destruct l as [| []]; exact H. }
  destruct (fexp prec emax (Zdigits2 m + e) - e)%Z; cbn [fst]; auto.
  now apply iter_shr_1_nonneg.
Qed.

Lemma round_nearest_even_nonneg m l :
  (0 <= m)%Z -> (0 <= round_nearest_even m l)%Z.
Proof.
  intros H. destruct l as [| []]; cbn; try lia.
  destruct (Z.even m); lia.
Qed.

Lemma binary_round_aux_signed prec emax s m e l :
  (0 <= m)%Z -> signed_as s (binary_round_aux prec emax s m e l).
Proof.
  intros H. unfold binary_round_aux.
  pose proof (shr_fexp_nonneg prec emax m e l H) as H1.
  destruct (shr_fexp prec emax m e l) as [mrs' e']. cbn [fst] in H1.
  pose proof (shr_fexp_nonneg prec emax _ e' loc_Exact
                (round_nearest_even_nonneg _ (loc_of_shr_record mrs') H1)) as H2.
  destruct (shr_fexp prec emax _ e' loc_Exact) as [mrs'' e'']. cbn [fst] in H2.
  destruct (shr_m mrs''); [ reflexivity | | lia ].
  destruct (e'' <=? emax - prec)%Z; reflexivity.
Qed.

Lemma binary_round_signed prec emax s m e :
  signed_as s (binary_round prec emax s m e).
Proof.
  unfold binary_round. destruct (shl_align _ _ _) as [mz ez].
  apply binary_round_aux_signed. lia.
Qed.

Lemma SFmul_self_nonneg x : x <> S754_nan -> SF_nonneg (SF64mul x x).
Proof.
  intros H. destruct x as [s | s | | s m e]; try contradiction; cbn.
  - now destruct s.
  - now destruct s.
  - rewrite xorb_nilpotent. apply binary_round_aux_signed. lia.
Qed.

Lemma SFadd_nonneg x y : SF_nonneg x -> SF_nonneg y -> SF_nonneg (SF64add x y).
Proof.
  destruct x as [[] | [] | | [] mx ex]; try discriminate; try contradiction;
  destruct y as [[] | [] | | [] my ey]; try discriminate; try contradiction;
    intros _ _; try reflexivity.
  unfold SF64add, SFadd. cbn [cond_Zopp Z.add binary_normalize].
  apply binary_round_signed.
Qed.

Lemma SFsqrt_nonneg x : SF_nonneg x -> SF_nonneg (SF64sqrt x).
Proof.
  destruct x as [[] | [] | | [] m e]; try discriminate; try contradiction;
    intros _; try reflexivity.
  unfold SF64sqrt, SFsqrt.
  destruct (SFsqrt_core_binary prec emax (Z.pos m) e) as [[mz ez] lz] eqn:E.
  apply binary_round_aux_signed.
  unfold SFsqrt_core_binary in E.
  destruct (Z.sqrtrem _) as [q r] eqn:Eq in E.
  injection E as <- _ _.
  match type of Eq with Z.sqrtrem ?n = _ =>
    pose proof (Z.sqrtrem_sqrt n) as Hs; rewrite Eq in Hs; cbn [fst] in Hs;
    pose proof (Z.sqrt_nonneg n) end.
  lia.
Qed.

Lemma is_nan_Prim2SF x : PrimFloat.is_nan x = false <-> Prim2SF x <> S754_nan.
Proof.
  unfold PrimFloat.is_nan. rewrite eqb_spec. unfold SFeqb.
  destruct (Prim2SF x) as [s | s | | s m e]; cbn.
  - split; [ discriminate | reflexivity ].
  - destruct s; (split; [ discriminate | reflexivity ]).
  - split; [ discriminate | intros H; now contradiction H ].
  - rewrite Z.compare_refl, Pos.compare_cont_refl.
    destruct s; (split; [ discriminate | reflexivity ]).
Qed.

Lemma SF_nonneg_not_nan x : SF_nonneg x -> x <> S754_nan.
Proof. destruct x; cbn; congruence. Qed.

(** [Math.sqrt(a*a + b*b)] is a number whenever [a] and [b] are. *)
Lemma F64_hypotenuse_not_nan (a b : float) :
  PrimFloat.is_nan a = false -> PrimFloat.is_nan b = false ->
  PrimFloat.is_nan (PrimFloat.sqrt (a * a + b * b)%float) = false.
Proof.
  rewrite !is_nan_Prim2SF. intros Ha Hb.
  rewrite sqrt_spec, add_spec, !mul_spec.
  apply SF_nonneg_not_nan, SFsqrt_nonneg, SFadd_nonneg;
    now apply SFmul_self_nonneg.
Qed.

(** No double lies strictly between zero and [tiny]. *)
Lemma F64_nothing_below_tiny (y : float) :
  PrimFloat.ltb 0 y = true -> PrimFloat.ltb y tiny = false.
Proof.
  rewrite !ltb_spec. pose proof (Prim2SF_valid y) as V.
  change (Prim2SF 0) with (S754_zero false).
  replace (Prim2SF tiny) with (S754_finite false 1 (-1074))
    by (vm_compute; reflexivity).
  destruct (Prim2SF y) as [s | s | | s m e]; cbn; try discriminate;
    try (destruct s; discriminate || reflexivity).
  destruct s; [ discriminate | intros _ ].
  cbn in V. apply andb_true_iff in V as [C _].
  unfold canonical_mantissa, fexp in C. apply Z.eqb_eq in C.
  unfold SFltb, SFcompare.
  destruct (Z.compare_spec e (-1074)) as [-> | Hlt | Hgt]; try reflexivity.
  - destruct m; reflexivity.
  - exfalso. unfold emin, SpecFloat.emin in C. cbn in C. lia.
Qed.

(** ** The text [toFixed] builds *)

Lemma digit_char_is_digit d : (0 <= d < 10)%Z -> is_digit (digit_char d) = true.
Proof.
  intros H.
  assert (E : (d = 0 \/ d = 1 \/ d = 2 \/ d = 3 \/ d = 4 \/ d = 5
               \/ d = 6 \/ d = 7 \/ d = 8 \/ d = 9)%Z) by lia.
  repeat (destruct E as [-> | E]; [ reflexivity | ]). now subst.
Qed.

Lemma digits_aux_digits fuel : forall n acc,
  (0 <= n)%Z -> forallb is_digit acc = true ->
  forallb is_digit (digits_aux fuel n acc) = true.
Proof.
  induction fuel as [| fuel IH]; intros n acc Hn Hacc; cbn [digits_aux].
  - exact Hacc.
  - destruct (n <? 10)%Z eqn:E.
    + cbn [forallb]. rewrite digit_char_is_digit by lia. exact Hacc.
    + apply IH.
      * apply Z.div_pos; lia.
      * cbn [forallb]. rewrite digit_char_is_digit; [ exact Hacc | ].
        apply Z.mod_pos_bound. lia.
Qed.

Lemma decimal_digits_digits n :
  (0 <= n)%Z -> forallb is_digit (decimal_digits n) = true.
Proof. intros H. now apply digits_aux_digits. Qed.

Lemma forallb_repeat_zero k : forallb is_digit (repeat "0"%char k) = true.
Proof. induction k; [ reflexivity | exact IHk ]. Qed.

Lemma shape_of_parts ip fp f :
  ip <> [] -> length fp = f ->
  forallb is_digit ip = true -> forallb is_digit fp = true ->
  forall sign, sign = "" \/ sign = "-" ->
  fixed_point_shape f (sign ++ string_of_list_ascii (ip ++ "."%char :: fp)) = true.
Proof.
  intros Hip Hlen Dip Dfp sign Hsign. unfold fixed_point_shape.
  assert (E : strip_sign (list_ascii_of_string
                (sign ++ string_of_list_ascii (ip ++ "."%char :: fp)))
              = (ip ++ "."%char :: fp)%list).
  { destruct Hsign as [-> | ->]; cbn [append list_ascii_of_string strip_sign];
      rewrite ?list_ascii_of_string_of_list_ascii; [ | reflexivity ].
    destruct ip as [| ch ip']; [ contradiction | ].
    cbn [app strip_sign]. cbn [forallb] in Dip.
    apply andb_true_iff in Dip as [Dch _].
    destruct (Ascii.eqb_spec ch "-"%char) as [-> | Hne];
      [ discriminate | reflexivity ]. }
  rewrite E. clear E.
  replace (length (ip ++ "."%char :: fp) - S f)%nat with (length ip)
    by (rewrite length_app; cbn [length]; lia).
  rewrite skipn_app, skipn_all, Nat.sub_diag. cbn [skipn app].
  rewrite firstn_app, firstn_all, Nat.sub_diag. cbn [firstn]. rewrite app_nil_r.
  rewrite Dip, Dfp, Hlen, Nat.eqb_refl.
  destruct ip; [ contradiction | reflexivity ].
Qed.

Lemma fixed_text_shape n f sign :
  (0 <= n)%Z -> (1 <= f)%nat -> sign = "" \/ sign = "-" ->
  fixed_point_shape f (sign ++ fixed_text n f) = true.
Proof.
  intros Hn Hf Hsign. unfold fixed_text.
  destruct (Nat.eqb_spec f 0) as [-> | _]; [ lia | ].
  set (m := (repeat "0"%char (S f - length (decimal_digits n))
               ++ decimal_digits n)%list).
  assert (Hk : (S f <= length m)%nat).
  { unfold m. rewrite length_app, repeat_length. lia. }
  assert (Dm : forallb is_digit m = true).
  { unfold m. rewrite forallb_app, forallb_repeat_zero.
    now apply decimal_digits_digits. }
  rewrite <- (firstn_skipn (length m - f) m) in Dm.
  rewrite forallb_app in Dm. apply andb_true_iff in Dm as [D1 D2].
  apply shape_of_parts; auto.
  - intros E. apply (f_equal (@length ascii)) in E.
    rewrite length_firstn in E. cbn [length] in E. lia.
  - rewrite length_skipn. lia.
Qed.

Lemma nearest_scaled_nonneg m e f : (0 <= F64.nearest_scaled m e f)%Z.
Proof.
  unfold F64.nearest_scaled.
  assert (H10 : (0 < 10 ^ Z.of_nat f)%Z) by (apply Z.pow_pos_nonneg; lia).
  destruct (0 <=? e)%Z eqn:E.
  - apply Z.leb_le in E. pose proof (Z.pow_pos_nonneg 2 e). nia.
  - apply Z.leb_gt in E.
    assert (0 < 2 ^ (- e))%Z by (apply Z.pow_pos_nonneg; lia).
    assert (0 < 2 ^ (1 - e))%Z by (apply Z.pow_pos_nonneg; lia).
    apply Z.div_pos; nia.
Qed.

(** Below 1e21 in magnitude, [x.toFixed(f)] has exactly [f] decimals. *)
Lemma F64_toFixed_shape (x : float) (f : nat) :
  PrimFloat.is_nan x = false ->
  PrimFloat.leb 1e21 (PrimFloat.abs x) = false ->
  (1 <= f)%nat ->
  fixed_point_shape f (F64.toFixed x f) = true.
Proof.
  intros Hnan Hbig Hf. unfold F64.toFixed.
  rewrite leb_spec, abs_spec in Hbig.
  apply is_nan_Prim2SF in Hnan.
  destruct (Prim2SF x) as [s | s | | s m e] eqn:E.
  - apply (fixed_text_shape 0 f ""); [ lia | assumption | now left ].
  - exfalso. destruct s; vm_compute in Hbig; discriminate.
  - now contradiction Hnan.
  - rewrite leb_spec, abs_spec, E, Hbig.
    apply fixed_text_shape;
      [ apply nearest_scaled_nonneg | assumption | destruct s; auto ].
Qed.

(** ** Exact arithmetic: the first quadrant *)

Local Open Scope R_scope.

Lemma theta_range angle : 0 < angle < 90 -> 0 < angle * PI / 180 < PI / 2.
Proof. intros [H1 H2]. pose proof PI_RGT_0. split; nra. Qed.

Lemma sin_cos_tan_acute t :
  0 < t < PI / 2 ->
  0 < Rtrigo_def.sin t < 1 /\ 0 < Rtrigo_def.cos t < 1 /\ 0 < Rtrigo1.tan t.
Proof.
  intros [H1 H2]. pose proof PI_RGT_0.
  assert (Hs : 0 < Rtrigo_def.sin t) by (apply sin_gt_0; lra).
  assert (Hc : 0 < Rtrigo_def.cos t) by (apply cos_gt_0; lra).
  pose proof (sin2_cos2 t) as E. unfold Rsqr in E.
  repeat split; try assumption.
  - nra.
  - nra.
  - unfold Rtrigo1.tan. apply Rdiv_lt_0_compat; assumption.
Qed.

(** In a right triangle with an acute angle [t], whichever side [v] is
    given, both legs are positive and shorter than the hypotenuse. *)
Lemma acute_triangle t v :
  0 < t < PI / 2 -> 0 < v ->
  (0 < v * Rtrigo_def.sin t < v /\ 0 < v * Rtrigo_def.cos t < v) /\
  (0 < v < v / Rtrigo_def.sin t /\
   0 < v / Rtrigo1.tan t < v / Rtrigo_def.sin t) /\
  (0 < v < v / Rtrigo_def.cos t /\
   0 < v * Rtrigo1.tan t < v / Rtrigo_def.cos t).
Proof.
  intros Ht Hv. destruct (sin_cos_tan_acute t Ht) as [Hs [Hc Htan]].
  assert (Hs1 : 1 < / Rtrigo_def.sin t).
  { rewrite <- Rinv_1 at 1. apply Rinv_lt_contravar; lra. }
  assert (Hc1 : 1 < / Rtrigo_def.cos t).
  { rewrite <- Rinv_1 at 1. apply Rinv_lt_contravar; lra. }
  assert (Etan : v / Rtrigo1.tan t = v / Rtrigo_def.sin t * Rtrigo_def.cos t).
  { unfold Rtrigo1.tan. field. lra. }
  assert (Etan' : v * Rtrigo1.tan t = v / Rtrigo_def.cos t * Rtrigo_def.sin t).
  { unfold Rtrigo1.tan. field. lra. }
  assert (Hvs : v < v / Rtrigo_def.sin t) by (unfold Rdiv; nra).
  assert (Hvc : v < v / Rtrigo_def.cos t) by (unfold Rdiv; nra).
  rewrite Etan, Etan'.
  repeat split; nra.
Qed.

Lemma recombine a c :
  0 <= a < c ->
  sqrt (a * a + sqrt (c * c - a * a) * sqrt (c * c - a * a)) = c.
Proof.
  intros H. rewrite sqrt_sqrt by nra.
  replace (a * a + (c * c - a * a)) with (c * c) by ring.
  apply sqrt_square. lra.
Qed.

Lemma sqrt3_bounds : 1.7320508 < sqrt 3 < 1.7320509.
Proof.
  pose proof (sqrt_pos 3) as Hp.
  pose proof (sqrt_sqrt 3 ltac:(lra)) as Hq.
  split; nra.
Qed.

Lemma thirty_degrees : 30 * PI / 180 = PI / 6.
Proof. field. Qed.

Lemma exact_present (x : Exact.num) :
  Exact.isNaN x = false -> exists u, x = Some u.
Proof. destruct x as [u |]; [ now exists u | discriminate ]. Qed.

Lemma exact_div u v : v <> 0 -> Exact.div (Some u) (Some v) = Some (u / v).
Proof.
  intros H. unfold Exact.div.
  destruct (Req_dec_T v 0); [ contradiction | reflexivity ].
Qed.

Lemma exact_tan u :
  Rtrigo_def.cos u <> 0 -> Exact.tan (Some u) = Some (Rtrigo1.tan u).
Proof.
  intros H. unfold Exact.tan.
  destruct (Req_dec_T (Rtrigo_def.cos u) 0); [ contradiction | reflexivity ].
Qed.

Lemma exact_sqrt u : 0 <= u -> Exact.sqrt (Some u) = Some (sqrt u).
Proof.
  intros H. unfold Exact.sqrt. destruct (Rlt_dec u 0); [ lra | reflexivity ].
Qed.

Lemma exact_le u v : Exact.le (Some u) (Some v) = true <-> u <= v.
Proof.
  unfold Exact.le. destruct (Rle_dec u v); split; auto; discriminate.
Qed.

Lemma exact_le_false u v : Exact.le (Some u) (Some v) = false <-> v < u.
Proof.
  unfold Exact.le. destruct (Rle_dec u v); split; intros; try lra;
    try reflexivity; try discriminate.
Qed.

Section ExactFacts.
Variable show : R -> string.
Local Abbreviation NR := (Exact.number show).
Local Abbreviation MR := Exact.math.

Lemma exact_rejected angle :
  angle_rejected (N := NR) (Some angle) = true <-> angle <= 0 \/ 90 <= angle.
Proof.
  unfold angle_rejected. cbn [le ge lit Exact.number].
  rewrite orb_true_iff, !exact_le. reflexivity.
Qed.

Lemma exact_guard angle :
  angle_rejected (N := NR) (Some angle) = false <-> 0 < angle < 90.
Proof.
  pose proof (exact_rejected angle) as [H1 H2].
  destruct (angle_rejected (N := NR) (Some angle)); split; intros H';
    try discriminate; try reflexivity.
  - exfalso. destruct (H1 eq_refl); lra.
  - destruct (Rle_dec angle 0) as [L | L];
      [ discriminate H2; auto | ].
    destruct (Rle_dec 90 angle) as [G | G];
      [ discriminate H2; auto | ].
    lra.
Qed.

Lemma exact_angleRad angle :
  angleRad (N := NR) (M := MR) (Some angle) = Some (angle * PI / 180).
Proof.
  unfold angleRad. cbn [div mul lit Math_PI Exact.number Exact.math Exact.lift2].
  rewrite exact_div by lra. reflexivity.
Qed.

Lemma exact_trig_values angle side v :
  0 < angle < 90 ->
  let t := angle * PI / 180 in
  exists r,
    calculateTrig (N := NR) (M := MR) (Some angle) side (Some v) = SetResult r /\
    Trig.sin r = Some (Rtrigo_def.sin t) /\
    Trig.cos r = Some (Rtrigo_def.cos t) /\
    Trig.tan r = Some (Rtrigo1.tan t) /\
    match side with
    | SideC => Trig.c r = Some v /\ Trig.a r = Some (v * Rtrigo_def.sin t) /\
               Trig.b r = Some (v * Rtrigo_def.cos t)
    | SideA => Trig.a r = Some v /\ Trig.c r = Some (v / Rtrigo_def.sin t) /\
               Trig.b r = Some (v / Rtrigo1.tan t)
    | SideB => Trig.b r = Some v /\ Trig.c r = Some (v / Rtrigo_def.cos t) /\
               Trig.a r = Some (v * Rtrigo1.tan t)
    end.
Proof.
  intros Hang t.
  destruct (sin_cos_tan_acute t (theta_range angle Hang)) as [Hs [Hc Ht]].
  destruct (trig_unfold (N := NR) (M := MR) (Some angle) side (Some v)
              eq_refl eq_refl (proj2 (exact_guard angle) Hang))
    as [r [E [Hsides [Hsin [Hcos [Htan _]]]]]].
  rewrite exact_angleRad in *. fold t in Hsides, Hsin, Hcos, Htan.
  cbn [Math_sin Math_cos Math_tan Exact.math Exact.lift1] in *.
  rewrite exact_tan in * by lra.
  exists r. repeat (split; [ assumption | ]).
  destruct side; cbn [sides_of] in Hsides; destruct Hsides as [H1 [H2 H3]];
    cbn [mul div Exact.number Exact.lift2 Math_sin Math_cos Math_tan
         Exact.math Exact.lift1] in H2, H3;
    try rewrite exact_tan in H2 by lra; try rewrite exact_tan in H3 by lra;
    try rewrite exact_div in H2 by lra; try rewrite exact_div in H3 by lra;
    auto.
Qed.

Lemma exact_pyth_ab a b c :
  pyth_value (calculatePythagoras (N := NR) (Some a) (Some b) c)
  = Some (Some (sqrt (a * a + b * b))).
Proof.
  rewrite (pyth_ab (N := NR)) by reflexivity.
  cbn [pyth_value Pyth.val Math_sqrt add mul Exact.number Exact.lift2].
  rewrite exact_sqrt by nra. reflexivity.
Qed.

Lemma exact_pyth_ac a c :
  0 <= a < c ->
  pyth_value (calculatePythagoras (N := NR) (Some a) None (Some c))
  = Some (Some (sqrt (c * c - a * a))).
Proof.
  intros H. rewrite (pyth_ac (N := NR)) by reflexivity.
  cbn [le Exact.number]. rewrite (proj2 (exact_le_false c a)) by lra.
  cbn [pyth_value Pyth.val Math_sqrt sub mul Exact.number Exact.lift2].
  rewrite exact_sqrt by nra. reflexivity.
Qed.

Lemma exact_toFixed u f n :
  0 <= u < 1e21 ->
  IZR n <= u * 10 ^ f + / 2 < IZR n + 1 ->
  Exact.toFixed show (Some u) f = fixed_text n f.
Proof.
  intros [H0 H1] Hn. unfold Exact.toFixed.
  destruct (Rlt_dec u 0); [ lra | ].
  rewrite Rabs_pos_eq by assumption.
  destruct (Rle_dec 1e21 u); [ lra | ].
  rewrite <- (Int_part_spec (u * 10 ^ f + / 2) n) by lra.
  reflexivity.
Qed.

Lemma exact_example_30_10 :
  exists r,
    calculateTrig (N := NR) (M := MR) (Some 30) SideC (Some 10) = SetResult r /\
    toFixed (JSNumber := NR) (Trig.a r) 4 = "5.0000"%string /\
    toFixed (JSNumber := NR) (Trig.b r) 4 = "8.6603"%string /\
    toFixed (JSNumber := NR) (Trig.sin r) 4 = "0.5000"%string /\
    toFixed (JSNumber := NR) (Trig.cos r) 4 = "0.8660"%string /\
    toFixed (JSNumber := NR) (Trig.tan r) 4 = "0.5774"%string.
Proof.
  destruct (exact_trig_values 30 SideC 10 ltac:(lra))
    as [r [E [Hsin [Hcos [Htan [Hc [Ha Hb]]]]]]].
  rewrite thirty_degrees, ?sin_PI6, ?cos_PI6, ?tan_PI6 in *.
  exists r. split; [ exact E | ].
  rewrite Ha, Hb, Hsin, Hcos, Htan. cbn [toFixed Exact.number].
  pose proof sqrt3_bounds as [Hl Hu].
  assert (Hinv : / sqrt 3 = sqrt 3 / 3).
  { pose proof (sqrt_sqrt 3 ltac:(lra)). field_simplify_eq; lra. }
  repeat split.
  - rewrite (exact_toFixed _ 4 50000); [ reflexivity | lra | simpl; lra ].
  - rewrite (exact_toFixed _ 4 86603); [ reflexivity | lra | simpl; lra ].
  - rewrite (exact_toFixed _ 4 5000); [ reflexivity | lra | simpl; lra ].
  - rewrite (exact_toFixed _ 4 8660); [ reflexivity | lra | simpl; lra ].
  - rewrite (exact_toFixed _ 4 5774); [ reflexivity | | ];
      unfold Rdiv; rewrite Rmult_1_l, Hinv; simpl; lra.
Qed.
End ExactFacts.

(** * The properties of the two handlers *)

Local Close Scope R_scope.

(** ** Presence of the three fields *)

(** C1 (as amended): [calculatePythagoras] is a no-op, storing no result and
    raising no alert, exactly when none or one of a, b, c is a number. *)
Theorem pythagoras_noop_iff_below_two
  {num : Type} {N : JSNumber num} (a b c : num) :
  calculatePythagoras a b c = Unchanged <-> (count_present a b c <= 1)%nat.
Proof.
  unfold count_present, present, calculatePythagoras.
  destruct (isNaN a), (isNaN b), (isNaN c); cbn [negb andb Nat.add];
    try destruct (le c a); try destruct (le c b);
    split; intros H; try reflexivity; try discriminate; lia.
Qed.

(** C1 fails as stated: with 3, 4 and 5 in the three fields all are present
    and the handler stores the result 5. *)
Lemma three_fields_store_a_result :
  count_present 3%float 4%float 5%float = 3%nat /\
  calculatePythagoras 3%float 4%float 5%float <> Unchanged /\
  pyth_value (calculatePythagoras 3%float 4%float 5%float) = Some 5%float.
Proof.
  split; [ | split ].
  - vm_compute. reflexivity.
  - intros H. vm_compute in H. discriminate.
  - vm_compute. reflexivity.
Qed.

(** C10: when a and b are both numbers the first branch runs whatever c
    is: the stored value is [Math.sqrt(a*a + b*b)] with the six steps, c is
    never read, no alert is raised, and the outcome is that of the same
    call with any other third field. *)
Theorem pythagoras_legs_take_precedence
  {num : Type} {N : JSNumber num} (a b c : num) :
  isNaN a = false -> isNaN b = false ->
  (exists r,
     calculatePythagoras a b c = SetResult r /\
     Pyth.val r = Math_sqrt (add (mul a a) (mul b b)) /\
     map text (Pyth.steps r) = headings_c) /\
  (forall c', calculatePythagoras a b c = calculatePythagoras a b c') /\
  (forall msg, calculatePythagoras a b c <> Alerted msg).
Proof.
  intros Ha Hb. split; [ | split ].
  - eexists. split; [ apply (pyth_ab a b c Ha Hb) | split; reflexivity ].
  - intros c'. now rewrite !pyth_ab.
  - intros msg. rewrite pyth_ab by assumption. discriminate.
Qed.

Lemma pythagoras_legs_take_precedence_witness :
  calculatePythagoras 3%float 4%float 5%float
  = calculatePythagoras 3%float 4%float PrimFloat.nan.
Proof.
  exact (proj1 (proj2 (pythagoras_legs_take_precedence
                         3%float 4%float 5%float eq_refl eq_refl))
               PrimFloat.nan).
Defined.

(** ** The hypotenuse from the two legs *)

(** C3 (as amended): for all numbers a and b the handler stores
    [Math.sqrt(a*a + b*b)], computed in binary64, with six steps in this
    order: the known legs, the formula, the substitution, the squares with
    [toFixed(2)], their sum with [toFixed(2)], the result with [toFixed(4)].
    [toFixed(f)] gives exactly [f] decimal places when its number is below
    1e21 in magnitude.  With a = 3 and b = 4 the value is 5, shown as 5.0000,
    and the fourth step shows 9.00 + 16.00. *)
Theorem pythagoras_hypotenuse_derivation :
  (forall a b c : float,
     PrimFloat.is_nan a = false -> PrimFloat.is_nan b = false ->
     calculatePythagoras a b c =
     SetResult
       {| Pyth.val := PrimFloat.sqrt (a * a + b * b)%float;
          Pyth.steps :=
            [ step "Identificamos los catetos:"
                   ("a = " ++ F64.toString a ++ ", b = " ++ F64.toString b);
              step "Usamos la fórmula:" "c = \sqrt{a^2 + b^2}";
              step "Sustituimos valores:"
                   ("c = \sqrt{" ++ F64.toString a ++ "^2 + "
                                 ++ F64.toString b ++ "^2}");
              step "Calculamos cuadrados:"
                   ("c = \sqrt{" ++ F64.toFixed (a * a)%float 2 ++ " + "
                                 ++ F64.toFixed (b * b)%float 2 ++ "}");
              step "Sumamos:"
                   ("c = \sqrt{" ++ F64.toFixed (a * a + b * b)%float 2 ++ "}");
              step "Resultado final:"
                   ("c \approx "
                      ++ F64.toFixed (PrimFloat.sqrt (a * a + b * b)%float) 4)
            ] |}) /\
  (forall (x : float) (f : nat),
     PrimFloat.is_nan x = false ->
     PrimFloat.leb 1e21 (PrimFloat.abs x) = false ->
     (1 <= f)%nat ->
     fixed_point_shape f (F64.toFixed x f) = true) /\
  calculatePythagoras 3%float 4%float PrimFloat.nan =
  SetResult
    {| Pyth.val := 5%float;
       Pyth.steps :=
         [ step "Identificamos los catetos:" "a = 3, b = 4";
           step "Usamos la fórmula:" "c = \sqrt{a^2 + b^2}";
           step "Sustituimos valores:" "c = \sqrt{3^2 + 4^2}";
           step "Calculamos cuadrados:" "c = \sqrt{9.00 + 16.00}";
           step "Sumamos:" "c = \sqrt{25.00}";
           step "Resultado final:" "c \approx 5.0000" ] |}.
Proof.
  split; [ | split ].
  - intros a b c Ha Hb. exact (pyth_ab a b c Ha Hb).
  - exact F64_toFixed_shape.
  - vm_compute. reflexivity.
Qed.

Lemma pythagoras_hypotenuse_derivation_witness :
  fixed_point_shape 2 (F64.toFixed (3 * 3)%float 2) = true.
Proof.
  exact (proj1 (proj2 pythagoras_hypotenuse_derivation)
               (3 * 3)%float 2%nat eq_refl eq_refl (le_S 1 1 (le_n 1))).
Defined.

(** C3 fails as stated: with a = 1e11 and b = 1 the square of a is 1e22,
    which [toFixed(2)] prints as 1e+22, with no decimal places. *)
Lemma large_square_shown_without_decimals :
  nth_error (pyth_steps (calculatePythagoras 1e11%float 1%float PrimFloat.nan)) 3
  = Some (step "Calculamos cuadrados:" "c = \sqrt{1e+22 + 1.00}") /\
  fixed_point_shape 2 (F64.toFixed (1e11 * 1e11)%float 2) = false.
Proof. split; vm_compute; reflexivity. Qed.

(** ** A leg from the hypotenuse *)

(** C4: with exactly the pair (a, c) or the pair (b, c) present, the
    handler alerts "La hipotenusa debe ser mayor que el cateto." and stores
    nothing exactly when [c <= leg]; otherwise it stores
    [Math.sqrt(c*c - leg*leg)] with four steps: the known sides, the
    rearranged formula, the substitution, the result with [toFixed(4)]. *)
Theorem pythagoras_leg_from_hypotenuse
  {num : Type} {N : JSNumber num} (a b c : num) :
  isNaN c = false ->
  (isNaN a = false -> isNaN b = true ->
   (calculatePythagoras a b c = Alerted invalidGeometry <-> le c a = true) /\
   (le c a = true -> pyth_value (calculatePythagoras a b c) = None) /\
   (le c a = false ->
    calculatePythagoras a b c =
    SetResult
      {| Pyth.val := Math_sqrt (sub (mul c c) (mul a a));
         Pyth.steps :=
           [ step "Identificamos los lados:"
                  ("a = " ++ toString a ++ ", c = " ++ toString c);
             step "Despejamos b de la fórmula:" "b = \sqrt{c^2 - a^2}";
             step "Sustituimos valores:"
                  ("b = \sqrt{" ++ toString c ++ "^2 - " ++ toString a ++ "^2}");
             step "Resultado final:"
                  ("b \approx "
                     ++ toFixed (Math_sqrt (sub (mul c c) (mul a a))) 4) ] |}))
  /\
  (isNaN a = true -> isNaN b = false ->
   (calculatePythagoras a b c = Alerted invalidGeometry <-> le c b = true) /\
   (le c b = true -> pyth_value (calculatePythagoras a b c) = None) /\
   (le c b = false ->
    calculatePythagoras a b c =
    SetResult
      {| Pyth.val := Math_sqrt (sub (mul c c) (mul b b));
         Pyth.steps :=
           [ step "Identificamos los lados:"
                  ("b = " ++ toString b ++ ", c = " ++ toString c);
             step "Despejamos a de la fórmula:" "a = \sqrt{c^2 - b^2}";
             step "Sustituimos valores:"
                  ("a = \sqrt{" ++ toString c ++ "^2 - " ++ toString b ++ "^2}");
             step "Resultado final:"
                  ("a \approx "
                     ++ toFixed (Math_sqrt (sub (mul c c) (mul b b))) 4) ] |})).
Proof.
  intros Hc; split; intros Ha Hb.
  - rewrite (pyth_ac a b c Ha Hb Hc).
    destruct (le c a); repeat split; intros; try reflexivity; discriminate.
  - rewrite (pyth_bc a b c Ha Hb Hc).
    destruct (le c b); repeat split; intros; try reflexivity; discriminate.
Qed.

Lemma pythagoras_leg_from_hypotenuse_witness :
  calculatePythagoras 5%float PrimFloat.nan 5%float = Alerted invalidGeometry /\
  pyth_value (calculatePythagoras 3%float PrimFloat.nan 5%float) = Some 4%float.
Proof.
  split.
  - apply (proj1 (pythagoras_leg_from_hypotenuse (N := F64_number)
                    5%float PrimFloat.nan 5%float eq_refl) eq_refl eq_refl).
    reflexivity.
  - rewrite (proj2 (proj2 (proj1 (pythagoras_leg_from_hypotenuse
                    (N := F64_number)
                    3%float PrimFloat.nan 5%float eq_refl) eq_refl eq_refl))
               eq_refl).
    reflexivity.
Defined.

(** ** What a stored result holds *)

(** C2 (as amended): only NaN inputs are screened before a result is
    built, and the result itself is not validated.  In binary64 the value of
    the a-and-b branch is never NaN (it can be Infinity).  In exact
    arithmetic every number of every stored result is a real number: the
    computed side, a non-negative one, when the legs given are not negative,
    and all six numeric fields of a trig result. *)
Theorem stored_fields_are_numbers :
  (forall a b c : float,
     PrimFloat.is_nan a = false -> PrimFloat.is_nan b = false ->
     exists r, calculatePythagoras a b c = SetResult r /\
               PrimFloat.is_nan (Pyth.val r) = false) /\
  (forall (show : R -> string) (a b c : Exact.num) r,
     nonneg_leg a -> nonneg_leg b ->
     calculatePythagoras (N := Exact.number show) a b c = SetResult r ->
     exists u, Pyth.val r = Some u /\ (0 <= u)%R) /\
  (forall (show : R -> string) (angleDeg sideVal : Exact.num) side r,
     calculateTrig (N := Exact.number show) (M := Exact.math)
       angleDeg side sideVal = SetResult r ->
     all_numbers (N := Exact.number show) r = true).
Proof.
  split; [ | split ].
  - intros a b c Ha Hb. eexists. split; [ exact (pyth_ab a b c Ha Hb) | ].
    exact (F64_hypotenuse_not_nan a b Ha Hb).
  - intros show a b c r Na Nb E.
    destruct (pyth_stored_inv (N := Exact.number show) a b c r E)
      as [[Ha [Hb Hv]] | [[Ha [Hb [Hc [Hle Hv]]]] | [Ha [Hb [Hc [Hle Hv]]]]]];
      cbn [isNaN Exact.number] in Ha, Hb; try cbn [isNaN Exact.number] in Hc.
    + destruct (exact_present a Ha) as [x ->].
      destruct (exact_present b Hb) as [y ->].
      cbn [Math_sqrt add mul Exact.number Exact.lift2] in Hv.
      rewrite exact_sqrt in Hv by nra.
      eexists. split; [ exact Hv | apply sqrt_pos ].
    + destruct (exact_present a Ha) as [x ->].
      destruct (exact_present c Hc) as [z ->].
      cbn [le Exact.number] in Hle. apply exact_le_false in Hle.
      cbn [nonneg_leg] in Na.
      cbn [Math_sqrt sub mul Exact.number Exact.lift2] in Hv.
      rewrite exact_sqrt in Hv by nra.
      eexists. split; [ exact Hv | apply sqrt_pos ].
    + destruct (exact_present b Hb) as [y ->].
      destruct (exact_present c Hc) as [z ->].
      cbn [le Exact.number] in Hle. apply exact_le_false in Hle.
      cbn [nonneg_leg] in Nb.
      cbn [Math_sqrt sub mul Exact.number Exact.lift2] in Hv.
      rewrite exact_sqrt in Hv by nra.
      eexists. split; [ exact Hv | apply sqrt_pos ].
  - intros show angleDeg sideVal side r E.
    destruct (trig_stored_inv _ _ _ _ E) as [Ha [Hv Hr]].
    cbn [isNaN Exact.number] in Ha, Hv.
    destruct (exact_present angleDeg Ha) as [x ->].
    destruct (exact_present sideVal Hv) as [v ->].
    apply exact_guard in Hr.
    destruct (exact_trig_values show x side v Hr)
      as [r' [E' [Hsin [Hcos [Htan Hsides]]]]].
    rewrite E in E'. injection E' as <-.
    unfold all_numbers. rewrite Hsin, Hcos, Htan.
    destruct side; destruct Hsides as [H1 [H2 H3]]; rewrite H1, H2, H3;
      reflexivity.
Qed.

Lemma stored_fields_are_numbers_witness :
  exists r, calculatePythagoras 1e200%float 1e200%float PrimFloat.nan
            = SetResult r /\
            PrimFloat.is_nan (Pyth.val r) = false.
Proof.
  exact (proj1 stored_fields_are_numbers
               1e200%float 1e200%float PrimFloat.nan eq_refl eq_refl).
Defined.

(** C2 fails as stated: a = -5 with c = 1 passes the test [c <= a] and the
    stored leg is NaN; a = b = 1e200 stores Infinity. *)
Lemma stored_value_nan_or_infinite :
  pyth_value (calculatePythagoras (-5)%float PrimFloat.nan 1%float)
  = Some PrimFloat.nan /\
  pyth_value (calculatePythagoras 1e200%float 1e200%float PrimFloat.nan)
  = Some PrimFloat.infinity.
Proof. split; vm_compute; reflexivity. Qed.

(** ** Solving for a leg and recombining *)

(** C8 (as amended): in exact arithmetic, for all non-negative a and b the
    handler stores the square root of a*a + b*b; and for 0 <= a < c, the leg
    b it stores for (a, c), put back with a, gives c again, exactly. *)
Theorem pythagoras_round_trip_exact (show : R -> string) :
  (forall a b : R, (0 <= a)%R -> (0 <= b)%R ->
     pyth_value (calculatePythagoras (N := Exact.number show)
                   (Some a) (Some b) None)
     = Some (Some (sqrt (a * a + b * b)%R))) /\
  (forall a c : R, (0 <= a < c)%R ->
     exists b : R,
       b = sqrt (c * c - a * a)%R /\
       pyth_value (calculatePythagoras (N := Exact.number show)
                     (Some a) None (Some c)) = Some (Some b) /\
       pyth_value (calculatePythagoras (N := Exact.number show)
                     (Some a) (Some b) None) = Some (Some c)).
Proof.
  split.
  - intros a b _ _. apply exact_pyth_ab.
  - intros a c H. eexists. split; [ reflexivity | split ].
    + now apply exact_pyth_ac.
    + rewrite exact_pyth_ab. now rewrite recombine.
Qed.

Lemma pythagoras_round_trip_exact_witness :
  exists b : R,
    b = sqrt (5 * 5 - 3 * 3)%R /\
    pyth_value (calculatePythagoras (N := Exact.number mute)
                  (Some 3%R) None (Some 5%R)) = Some (Some b) /\
    pyth_value (calculatePythagoras (N := Exact.number mute)
                  (Some 3%R) (Some b) None) = Some (Some 5%R).
Proof.
  apply (proj2 (pythagoras_round_trip_exact mute) 3%R 5%R). lra.
Defined.

(** C8 fails as stated in binary64: a = 3e-200 and c = 5e-200 are positive
    with a < c, their squares underflow to zero, the leg stored for (a, c)
    is 0, and recombining a with it gives 0, not c. *)
Lemma round_trip_lost_to_underflow :
  PrimFloat.ltb 0 3e-200 = true /\ PrimFloat.ltb 3e-200 5e-200 = true /\
  pyth_value (calculatePythagoras 3e-200%float PrimFloat.nan 5e-200%float)
  = Some 0%float /\
  pyth_value (calculatePythagoras 3e-200%float 0%float PrimFloat.nan)
  = Some 0%float /\
  PrimFloat.ltb (1e-9 * 5e-200) (PrimFloat.abs (0 - 5e-200)) = true.
Proof. repeat split; vm_compute; reflexivity. Qed.

(** ** The angle guard *)

(** C6: a non-numeric angle or side value makes [calculateTrig] a no-op;
    with both numeric it alerts "El ángulo debe estar entre 0° y 90°."
    exactly when [angleDeg <= 0 || angleDeg >= 90] and stores a result
    exactly when it does not.  In binary64 that test is the comparison of
    doubles and rejects the angles 0 and 90 whatever the engine's [Math]; in
    exact arithmetic it is [angle <= 0] or [90 <= angle]. *)
Theorem trig_angle_guard :
  (forall (num : Type) (N : JSNumber num) (M : JSMath num)
          (angleDeg sideVal : num) (side : Side),
     (isNaN angleDeg || isNaN sideVal = true ->
      calculateTrig angleDeg side sideVal = Unchanged) /\
     (isNaN angleDeg = false -> isNaN sideVal = false ->
      (calculateTrig angleDeg side sideVal = Alerted invalidAngle
       <-> angle_rejected angleDeg = true) /\
      ((exists r, calculateTrig angleDeg side sideVal = SetResult r)
       <-> angle_rejected angleDeg = false))) /\
  (forall (L : Libm) (angleDeg sideVal : float) (side : Side),
     angle_rejected angleDeg
     = (PrimFloat.leb angleDeg 0 || PrimFloat.leb 90 angleDeg) /\
     (PrimFloat.is_nan sideVal = false ->
      calculateTrig (M := F64_math L) 0%float side sideVal
      = Alerted invalidAngle /\
      calculateTrig (M := F64_math L) 90%float side sideVal
      = Alerted invalidAngle)) /\
  (forall (show : R -> string) (angle : R),
     angle_rejected (N := Exact.number show) (Some angle) = true
     <-> (angle <= 0 \/ 90 <= angle)%R).
Proof.
  split; [ | split ].
  - intros num N M angleDeg sideVal side. apply trig_guard_cases.
  - intros L angleDeg sideVal side. split; [ reflexivity | ].
    intros Hv. split.
    + apply (proj2 (trig_guard_cases (M := F64_math L) 0%float side sideVal));
        [ reflexivity | exact Hv | reflexivity ].
    + apply (proj2 (trig_guard_cases (M := F64_math L) 90%float side sideVal));
        [ reflexivity | exact Hv | reflexivity ].
  - intros show angle. apply exact_rejected.
Qed.

Lemma trig_angle_guard_witness :
  calculateTrig (M := F64_math Sample.libm) 0%float SideC 5%float
  = Alerted invalidAngle /\
  calculateTrig (M := F64_math Sample.libm) 90%float SideC 5%float
  = Alerted invalidAngle.
Proof.
  exact (proj2 (proj1 (proj2 trig_angle_guard) Sample.libm 0%float 5%float SideC)
               eq_refl).
Defined.

(** ** The three branches *)

(** C5: for a numeric side value and an angle that passes the guard, with
    [angleRad = (angleDeg * Math.PI) / 180], the stored sides are: for a
    known hypotenuse c, [a = c * sin] and [b = c * cos]; for a known
    opposite leg a, [c = a / sin] and [b = a / tan]; for a known adjacent
    leg b, [c = b / cos] and [a = b * tan], all at [angleRad].  For 30 degrees
    and hypotenuse 10 the page shows a = 5.0000, b = 8.6603, sin = 0.5000,
    cos = 0.8660, tan = 0.5774: in exact arithmetic, and in binary64 on the
    sample engine. *)
Theorem trig_sides_by_branch :
  (forall (num : Type) (N : JSNumber num) (M : JSMath num)
          (angleDeg sideVal : num) (side : Side),
     isNaN angleDeg = false -> isNaN sideVal = false ->
     angle_rejected angleDeg = false ->
     angleRad angleDeg = div (mul angleDeg Math_PI) (lit 180) /\
     exists r,
       calculateTrig angleDeg side sideVal = SetResult r /\
       sides_of side (angleRad angleDeg) sideVal r /\
       Trig.sin r = Math_sin (angleRad angleDeg) /\
       Trig.cos r = Math_cos (angleRad angleDeg) /\
       Trig.tan r = Math_tan (angleRad angleDeg) /\
       length (Trig.steps r) = 3%nat) /\
  (forall show : R -> string,
     shown_fields (N := Exact.number show)
       (calculateTrig (N := Exact.number show) (M := Exact.math)
          (Some 30%R) SideC (Some 10%R))
     = [ "5.0000"; "8.6603"; "0.5000"; "0.8660"; "0.5774" ]) /\
  shown_fields (calculateTrig (M := F64_math Sample.libm)
                  30%float SideC 10%float)
  = [ "5.0000"; "8.6603"; "0.5000"; "0.8660"; "0.5774" ].
Proof.
  split; [ | split ].
  - intros num N M angleDeg sideVal side Ha Hv Hr.
    split; [ reflexivity | ]. now apply trig_unfold.
  - intros show.
    destruct (exact_example_30_10 show) as [r [E [Ha [Hb [Hs [Hc Ht]]]]]].
    rewrite E. cbn [shown_fields]. now rewrite Ha, Hb, Hs, Hc, Ht.
  - vm_compute. reflexivity.
Qed.

Lemma trig_sides_by_branch_witness :
  exists r,
    calculateTrig (M := F64_math Sample.libm) 30%float SideC 10%float
    = SetResult r /\
    sides_of (M := F64_math Sample.libm) SideC
      (angleRad (M := F64_math Sample.libm) 30%float) 10%float r /\
    Trig.sin r = Sample.sin (angleRad (M := F64_math Sample.libm) 30%float) /\
    Trig.cos r = Sample.cos (angleRad (M := F64_math Sample.libm) 30%float) /\
    Trig.tan r = Sample.tan (angleRad (M := F64_math Sample.libm) 30%float) /\
    length (Trig.steps r) = 3%nat.
Proof.
  exact (proj2 (proj1 trig_sides_by_branch float F64_number
                  (F64_math Sample.libm) 30%float 10%float SideC
                  eq_refl eq_refl eq_refl)).
Defined.

(** C9: in a stored result the ratios are the sine, cosine and tangent of
    the very angle the sides were computed from, so the fields satisfy the
    branch's equations exactly: [a = c * sin], [b = c * cos] for a known
    hypotenuse, [c = a / sin], [b = a / tan] for a known opposite leg,
    [c = b / cos], [a = b * tan] for a known adjacent leg. *)
Theorem trig_result_consistent
  {num : Type} {N : JSNumber num} {M : JSMath num}
  (angleDeg sideVal : num) (side : Side) (r : Trig.Result num) :
  calculateTrig angleDeg side sideVal = SetResult r ->
  Trig.sin r = Math_sin (angleRad angleDeg) /\
  Trig.cos r = Math_cos (angleRad angleDeg) /\
  Trig.tan r = Math_tan (angleRad angleDeg) /\
  consistent side r.
Proof.
  intros E. destruct (trig_stored_inv _ _ _ _ E) as [Ha [Hv Hr]].
  destruct (trig_unfold angleDeg side sideVal Ha Hv Hr)
    as [r' [E' [Hs [Hsin [Hcos [Htan _]]]]]].
  rewrite E in E'. injection E' as <-.
  repeat (split; [ assumption | ]).
  destruct side; cbn [sides_of consistent] in *;
    destruct Hs as [H1 [H2 H3]]; rewrite ?Hsin, ?Hcos, ?Htan;
    split; congruence.
Qed.

Lemma trig_result_consistent_witness :
  exists r,
    calculateTrig (M := F64_math Sample.libm) 30%float SideC 10%float
    = SetResult r /\
    consistent SideC r.
Proof.
  destruct (trig_unfold (N := F64_number) (M := F64_math Sample.libm)
              30%float SideC 10%float eq_refl eq_refl eq_refl) as [r [E _]].
  exists r. split; [ exact E | ].
  exact (proj2 (proj2 (proj2
           (trig_result_consistent (M := F64_math Sample.libm)
              30%float 10%float SideC r E)))).
Defined.

(** ** The triangle a trig result describes *)

(** C7 (as amended): in exact arithmetic, for every angle strictly between
    0 and 90 degrees and every positive side value, in each of the three
    branches the stored a, b and c are positive real numbers with a < c and
    b < c, and a*a + b*b = c*c. *)
Theorem acute_triangle_sides
  (show : R -> string) (angle v : R) (side : Side) :
  (0 < angle < 90)%R -> (0 < v)%R ->
  exists (r : Trig.Result Exact.num) (a b c : R),
    calculateTrig (N := Exact.number show) (M := Exact.math)
      (Some angle) side (Some v) = SetResult r /\
    Trig.a r = Some a /\ Trig.b r = Some b /\ Trig.c r = Some c /\
    (0 < a < c)%R /\ (0 < b < c)%R /\ (a * a + b * b = c * c)%R.
Proof.
  intros Hang Hv.
  destruct (exact_trig_values show angle side v Hang)
    as [r [E [_ [_ [_ Hsides]]]]].
  pose proof (theta_range angle Hang) as Ht.
  destruct (sin_cos_tan_acute _ Ht) as [Hs [Hc Htan]].
  destruct (acute_triangle _ v Ht Hv) as [[C1 C2] [[A1 A2] [B1 B2]]].
  pose proof (sin2_cos2 (angle * PI / 180)) as P. unfold Rsqr in P.
  exists r.
  destruct side; destruct Hsides as [H1 [H2 H3]].
  - exists v, (v / Rtrigo1.tan (angle * PI / 180))%R,
           (v / Rtrigo_def.sin (angle * PI / 180))%R.
    repeat (split; [ assumption || lra | ]).
    unfold Rtrigo1.tan. field_simplify_eq; [ nra | lra ].
  - exists (v * Rtrigo1.tan (angle * PI / 180))%R, v,
           (v / Rtrigo_def.cos (angle * PI / 180))%R.
    repeat (split; [ assumption || lra | ]).
    unfold Rtrigo1.tan. field_simplify_eq; [ nra | lra ].
  - exists (v * Rtrigo_def.sin (angle * PI / 180))%R,
           (v * Rtrigo_def.cos (angle * PI / 180))%R, v.
    repeat (split; [ assumption || lra | ]).
    nra.
Qed.

Lemma acute_triangle_sides_witness :
  exists (r : Trig.Result Exact.num) (a b c : R),
    calculateTrig (N := Exact.number mute) (M := Exact.math)
      (Some 30%R) SideA (Some 1%R) = SetResult r /\
    Trig.a r = Some a /\ Trig.b r = Some b /\ Trig.c r = Some c /\
    (0 < a < c)%R /\ (0 < b < c)%R /\ (a * a + b * b = c * c)%R.
Proof.
  apply (acute_triangle_sides mute 30%R 1%R SideA); lra.
Defined.

(** C7 fails as stated in binary64: the smallest positive double, 5e-324,
    is a positive finite hypotenuse, 45 degrees is a valid angle, a result
    is stored whatever the engine's [Math], and for no engine and no angle
    is the stored a both positive and below c: no double lies between 0 and
    5e-324. *)
Lemma tiny_hypotenuse_leg_not_shorter :
  PrimFloat.ltb 0 tiny = true /\ PrimFloat.is_finite tiny = true /\
  (forall L : Libm,
     exists r, calculateTrig (M := F64_math L) 45%float SideC tiny
               = SetResult r) /\
  ~ (exists (L : Libm) (angleDeg : float) (r : Trig.Result float),
       calculateTrig (M := F64_math L) angleDeg SideC tiny = SetResult r /\
       PrimFloat.ltb 0 (Trig.a r) = true /\
       PrimFloat.ltb (Trig.a r) (Trig.c r) = true).
Proof.
  split; [ reflexivity | split; [ reflexivity | split ] ].
  - intros L.
    destruct (trig_unfold (N := F64_number) (M := F64_math L)
                45%float SideC tiny eq_refl eq_refl eq_refl) as [r [E _]].
    now exists r.
  - intros [L [angleDeg [r [E [Hpos Hlt]]]]].
    destruct (trig_stored_inv _ _ _ _ E) as [Ha [Hv Hr]].
    destruct (trig_unfold (M := F64_math L) angleDeg SideC tiny Ha Hv Hr)
      as [r' [E' [[Hc _] _]]].
    rewrite E in E'. injection E' as <-.
    rewrite Hc in Hlt.
    rewrite (F64_nothing_below_tiny _ Hpos) in Hlt. discriminate.
Qed.

(** * The page around the handlers *)

(** ** The clipboard text and the states the page reaches *)

Lemma append_nonempty_r (s t : string) : t <> "" -> s ++ t <> "".
Proof. destruct s; cbn; [ auto | discriminate ]. Qed.

Lemma copy_line_nonempty s : copy_line s <> "".
Proof. unfold copy_line. apply append_nonempty_r. discriminate. Qed.

Lemma copy_text_nonempty s l : copy_text (s :: l) <> "".
Proof.
  unfold copy_text. cbn [map String.concat].
  destruct (map copy_line l) as [| x xs].
  - apply copy_line_nonempty.
  - intros E. destruct (copy_line s) eqn:Es.
    + now apply (copy_line_nonempty s).
    + discriminate E.
Qed.

Section PageFacts.
Context {num : Type} {N : JSNumber num} {M : JSMath num} {V : JSValue num}.

Lemma copy_source_steps (st : AppState num) :
  copy_source st = option_map copy_text (active_steps st).
Proof.
  unfold copy_source, active_steps.
  destruct (activeTab st); [ destruct (pythResult st) | destruct (trigResult st) ];
    reflexivity.
Qed.

Lemma handleCopy_cases (st : AppState num) :
  match active_steps st with
  | Some (s :: l) =>
      handleCopy st
      = (with_copied st true, [ClipboardWrite (copy_text (s :: l))])
  | _ => handleCopy st = (st, [])
  end.
Proof.
  unfold handleCopy. rewrite copy_source_steps.
  destruct (active_steps st) as [[| s l] |]; cbn [option_map]; try reflexivity.
  destruct (String.eqb_spec (copy_text (s :: l)) "") as [E | _];
    [ now apply copy_text_nonempty in E | reflexivity ].
Qed.

Lemma pyth_steps_shape a b c (r : Pyth.Result num) :
  calculatePythagoras a b c = SetResult r ->
  (length (Pyth.steps r) = 6%nat \/ length (Pyth.steps r) = 4%nat) /\
  Forall has_math (Pyth.steps r).
Proof.
  unfold calculatePythagoras.
  destruct (negb (isNaN a) && negb (isNaN b));
    [ | destruct (negb (isNaN a) && negb (isNaN c));
        [ destruct (le c a); [ discriminate | ]
        | destruct (negb (isNaN b) && negb (isNaN c));
          [ destruct (le c b); [ discriminate | ] | discriminate ] ] ];
    intros E; injection E as <-; cbn [Pyth.steps length];
    (split; [ auto | ]);
    repeat (apply Forall_cons;
            [ eexists; split; [ reflexivity | cbn; discriminate ] | ]);
    apply Forall_nil.
Qed.

Lemma trig_steps_shape angleDeg side sideVal (r : Trig.Result num) :
  calculateTrig angleDeg side sideVal = SetResult r ->
  length (Trig.steps r) = 3%nat /\ Forall has_math (Trig.steps r).
Proof.
  unfold calculateTrig.
  destruct (isNaN angleDeg || isNaN sideVal); [ discriminate | ].
  destruct (le angleDeg (lit 0) || ge angleDeg (lit 90)); [ discriminate | ].
  destruct side; cbv beta iota zeta; intros E; injection E as <-;
    cbn [Trig.steps length]; (split; [ reflexivity | ]);
    repeat (apply Forall_cons;
            [ eexists; split; [ reflexivity | cbn; discriminate ] | ]);
    apply Forall_nil.
Qed.

Lemma step_keeps_from_handlers (st : AppState num) (e : Event num) :
  from_handlers st -> from_handlers (fst (step_page st e)).
Proof.
  intros [Hp Ht]. destruct e; cbn [step_page fst]; try (split; assumption).
  - destruct (calculatePythagoras (pythA st) (pythB st) (pythC st)) eqn:E;
      cbn [fst]; try (split; assumption).
    split; [ | exact Ht ].
    cbn [with_pythResult pythResult]. intros r' H. injection H as <-. eauto.
  - destruct (calculateTrig (trigAngle st) (trigSideType st) (trigSideVal st))
      eqn:E; cbn [fst]; try (split; assumption).
    split; [ exact Hp | ].
    cbn [with_trigResult trigResult]. intros r' H. injection H as <-. eauto.
  - pose proof (handleCopy_cases st) as H.
    destruct (active_steps st) as [[| s l] |]; rewrite H; cbn [fst];
      split; assumption.
Qed.

Lemma run_keeps_from_handlers (es : list (Event num)) :
  forall st, from_handlers st -> from_handlers (fst (run_page st es)).
Proof.
  induction es as [| e es IH]; intros st H; cbn [run_page].
  - exact H.
  - pose proof (step_keeps_from_handlers st e H) as H1.
    destruct (step_page st e) as [st1 out1]. cbn [fst] in H1.
    specialize (IH st1 H1).
    destruct (run_page st1 es) as [st2 out2]. exact IH.
Qed.

Lemma reachable_from_handlers (st : AppState num) :
  reachable st -> from_handlers st.
Proof.
  intros [es <-]. apply run_keeps_from_handlers.
  split; intros r H; discriminate H.
Qed.
End PageFacts.

Section PageProperties.
Context {num : Type} {N : JSNumber num} {M : JSMath num} {V : JSValue num}.

Lemma step_keeps_results (st : AppState num) (e : Event num) :
  (pythResult st <> None -> pythResult (fst (step_page st e)) <> None) /\
  (trigResult st <> None -> trigResult (fst (step_page st e)) <> None).
Proof.
  destruct e; cbn [step_page fst pythResult trigResult];
    try solve [ split; auto ].
  - destruct (calculatePythagoras _ _ _); cbn; split; auto; discriminate.
  - destruct (calculateTrig _ _ _); cbn; split; auto; discriminate.
  - pose proof (handleCopy_cases st) as H.
    destruct (active_steps st) as [[| s l] |]; rewrite H; cbn; split; auto.
Qed.

Lemma alert_keeps_state (st : AppState num) (e : Event num) (msg : string) :
  In (Alert msg) (snd (step_page st e)) -> fst (step_page st e) = st.
Proof.
  destruct e; cbn [step_page snd fst In]; try contradiction.
  - destruct (calculatePythagoras _ _ _); cbn; intros H; try reflexivity;
      contradiction.
  - destruct (calculateTrig _ _ _); cbn; intros H; try reflexivity;
      contradiction.
  - pose proof (handleCopy_cases st) as H.
    destruct (active_steps st) as [[| s l] |]; rewrite H; cbn; intros H';
      try contradiction.
    destruct H' as [H' | []]. discriminate.
Qed.

(** X6: [handleCopy] writes the clipboard and sets [copied] exactly when the
    active tab has a result with at least one step, and the text it writes
    is not empty; with no result on the active tab, or an empty derivation,
    it changes nothing and writes nothing. *)
Theorem copy_needs_a_derivation (st : AppState num) :
  (forall s l, active_steps st = Some (s :: l) ->
     handleCopy st = (with_copied st true, [ClipboardWrite (copy_text (s :: l))])
     /\ copy_text (s :: l) <> "") /\
  (active_steps st = None \/ active_steps st = Some [] ->
   handleCopy st = (st, [])).
Proof.
  pose proof (handleCopy_cases st) as H. split.
  - intros s l E. rewrite E in H. split; [ exact H | apply copy_text_nonempty ].
  - intros [E | E]; rewrite E in H; exact H.
Qed.

(** X7: in every state the page can reach, a stored result is one a
    handler built: a Pythagoras result has six or four steps, a trig result
    three, every step carries a non-empty formula, and whenever the active
    tab shows a derivation the copy button writes it to the clipboard. *)
Theorem reachable_results_are_derivations (st : AppState num) :
  reachable st ->
  from_handlers st /\
  (forall r, pythResult st = Some r ->
     (length (Pyth.steps r) = 6%nat \/ length (Pyth.steps r) = 4%nat) /\
     Forall has_math (Pyth.steps r)) /\
  (forall r, trigResult st = Some r ->
     length (Trig.steps r) = 3%nat /\ Forall has_math (Trig.steps r)) /\
  (forall steps, active_steps st = Some steps ->
     steps <> [] /\
     handleCopy st = (with_copied st true, [ClipboardWrite (copy_text steps)])).
Proof.
  intros R. pose proof (reachable_from_handlers st R) as [Hp Ht].
  assert (P : forall r, pythResult st = Some r ->
     (length (Pyth.steps r) = 6%nat \/ length (Pyth.steps r) = 4%nat) /\
     Forall has_math (Pyth.steps r)).
  { intros r E. destruct (Hp r E) as [a [b [c H]]].
    exact (pyth_steps_shape a b c r H). }
  assert (T : forall r, trigResult st = Some r ->
     length (Trig.steps r) = 3%nat /\ Forall has_math (Trig.steps r)).
  { intros r E. destruct (Ht r E) as [g [s [v H]]].
    exact (trig_steps_shape g s v r H). }
  split; [ split; assumption | split; [ exact P | split; [ exact T | ] ] ].
  intros steps E.
  assert (NE : steps <> []).
  { unfold active_steps in E. destruct (activeTab st).
    - destruct (pythResult st) as [r |] eqn:Er; [ | discriminate ].
      injection E as <-. destruct (P r eq_refl) as [[L | L] _];
        intros Z; rewrite Z in L; discriminate.
    - destruct (trigResult st) as [r |] eqn:Er; [ | discriminate ].
      injection E as <-. destruct (T r eq_refl) as [L _];
        intros Z; rewrite Z in L; discriminate. }
  split; [ exact NE | ].
  pose proof (handleCopy_cases st) as H. rewrite E in H.
  destruct steps; [ contradiction | exact H ].
Qed.

(** X8: no run of events clears a stored result, on either tab; and an
    event that raises an alert leaves the whole state as it was, so the
    result shown before a rejected calculation is still shown after it. *)
Theorem results_never_cleared (es : list (Event num)) :
  forall st : AppState num,
    (pythResult st <> None -> pythResult (fst (run_page st es)) <> None) /\
    (trigResult st <> None -> trigResult (fst (run_page st es)) <> None) /\
    (forall e msg, In (Alert msg) (snd (step_page st e)) ->
                   fst (step_page st e) = st).
Proof.
  induction es as [| e es IH]; intros st.
  - cbn. repeat split; auto. apply alert_keeps_state.
  - cbn [run_page].
    pose proof (step_keeps_results st e) as [S1 S2].
    destruct (step_page st e) as [st1 out1] eqn:E1. cbn [fst] in S1, S2.
    destruct (IH st1) as [I1 [I2 _]].
    destruct (run_page st1 es) as [st2 out2]. cbn [fst] in *.
    repeat split; auto. apply alert_keeps_state.
Qed.
End PageProperties.

Lemma copy_needs_a_derivation_witness :
  handleCopy (initialState (V := F64_value)) = (initialState, []).
Proof.
  apply (proj2 (copy_needs_a_derivation (initialState (V := F64_value)))).
  left. reflexivity.
Defined.

Lemma reachable_results_are_derivations_witness :
  exists steps,
    active_steps
      (fst (run_page (M := F64_math Sample.libm) initialState
              [SetPythA 3%float; SetPythB 4%float; ClickPythagoras]))
    = Some steps /\
    steps <> [] /\
    snd (handleCopy
           (fst (run_page (M := F64_math Sample.libm) initialState
                   [SetPythA 3%float; SetPythB 4%float; ClickPythagoras])))
    = [ClipboardWrite (copy_text steps)].
Proof.
  eexists. split; [ reflexivity | ].
  destruct (reachable_results_are_derivations (M := F64_math Sample.libm)
              (fst (run_page (M := F64_math Sample.libm) initialState
                      [SetPythA 3%float; SetPythB 4%float; ClickPythagoras]))
              (ex_intro _ [SetPythA 3%float; SetPythB 4%float; ClickPythagoras]
                 eq_refl))
    as [_ [_ [_ H]]].
  destruct (H _ eq_refl) as [NE E]. split; [ exact NE | ].
  rewrite E. reflexivity.
Defined.

Lemma results_never_cleared_witness :
  pythResult
    (fst (run_page (M := F64_math Sample.libm)
            (fst (run_page (M := F64_math Sample.libm) initialState
                    [SetPythA 3%float; SetPythB 4%float; ClickPythagoras]))
            [SetPythA 5%float; SetPythB PrimFloat.nan; SetPythC 5%float;
             ClickPythagoras; SetActiveTab TabTrig; ClickTrig]))
  <> None.
Proof.
  apply (proj1 (results_never_cleared (M := F64_math Sample.libm) _ _)).
  vm_compute. discriminate.
Defined.


(** ** The props of the diagram, in binary64 *)

Lemma F64_truthy_number (x : float) :
  truthy x = true -> PrimFloat.is_nan x = false.
Proof.
  cbn [truthy F64_value]. destruct (PrimFloat.is_nan x); [ discriminate | auto ].
Qed.

Lemma F64_or_num_number (x y : float) :
  PrimFloat.is_nan y = false -> PrimFloat.is_nan (or_num x y) = false.
Proof.
  intros Hy. unfold or_num. destruct (truthy x) eqn:E;
    [ now apply F64_truthy_number | exact Hy ].
Qed.

Lemma F64_opt_or_number (o : option float) (y : float) :
  PrimFloat.is_nan y = false -> PrimFloat.is_nan (opt_or o y) = false.
Proof.
  intros Hy. destruct o; cbn [opt_or]; [ now apply F64_or_num_number | exact Hy ].
Qed.

Lemma F64_toFixed_nan (x : float) (f : nat) :
  PrimFloat.is_nan x = true -> F64.toFixed x f = "NaN".
Proof.
  intros H. unfold F64.toFixed.
  destruct (Prim2SF x) eqn:E; try reflexivity;
    assert (H' : PrimFloat.is_nan x = false)
      by (apply is_nan_Prim2SF; rewrite E; discriminate);
    rewrite H in H'; discriminate.
Qed.

(** X2: in binary64, in every state, the three sides [App] passes to
    [TriangleVisualizer] are numbers, never NaN, so the [isNaN(c)] test there
    never fires: [maxSide] is [Math.max(a, b, c) || 1], which is neither 0
    nor NaN. *)
Theorem visualizer_props_are_numbers
  (st : AppState float) (a b c : float) (angleA : option float) :
  visualizerProps st = (a, b, c, angleA) ->
  PrimFloat.is_nan a = false /\ PrimFloat.is_nan b = false /\
  PrimFloat.is_nan c = false /\
  maxSide (drawn st) = or_num (Math_max a b c) 1%float /\
  truthy (maxSide (drawn st)) = true.
Proof.
  intros E.
  assert (H : PrimFloat.is_nan a = false /\ PrimFloat.is_nan b = false /\
              PrimFloat.is_nan c = false).
  { unfold visualizerProps in E. destruct (activeTab st);
      injection E as <- <- <- _;
      repeat split;
      first [ apply F64_or_num_number | apply F64_opt_or_number ];
      reflexivity. }
  destruct H as [Ha [Hb Hc]]. repeat (split; [ assumption | ]).
  unfold drawn. rewrite E. cbn [TriangleVisualizer maxSide].
  cbn [isNaN F64_number]. rewrite Hc.
  split; [ reflexivity | ].
  unfold or_num. destruct (truthy (Math_max a b c)) eqn:T;
    [ exact T | reflexivity ].
Qed.

Lemma visualizer_props_are_numbers_witness :
  truthy
    (maxSide
       (drawn (fst (run_page (M := F64_math Sample.libm) initialState
                      [SetPythA 3%float; SetPythC 5%float; ClickPythagoras]))))
  = true.
Proof.
  exact (proj2 (proj2 (proj2 (proj2
           (visualizer_props_are_numbers
              (fst (run_page (M := F64_math Sample.libm) initialState
                      [SetPythA 3%float; SetPythC 5%float; ClickPythagoras]))
              3%float 0%float 4%float None eq_refl))))).
Defined.


(** X9: in binary64, the diagram has no angle label on the Pythagoras tab
    and always has one on the trig tab, built from the angle field with
    [toFixed(1)]; with the angle field blank or non-numeric the label reads
    "α = NaN°". *)
Theorem angle_label_on_trig_tab (st : AppState float) :
  (activeTab st = TabPythagoras -> label_alpha (drawn st) = None) /\
  (activeTab st = TabTrig ->
   label_alpha (drawn st)
   = Some ("α = " ++ F64.toFixed (trigAngle st) 1 ++ "°")) /\
  (activeTab st = TabTrig -> PrimFloat.is_nan (trigAngle st) = true ->
   label_alpha (drawn st) = Some "α = NaN°").
Proof.
  unfold drawn, visualizerProps.
  repeat split; intros H; rewrite H; try reflexivity.
  intros Hn. cbn [TriangleVisualizer label_alpha toFixed F64_number].
  now rewrite F64_toFixed_nan.
Qed.

Lemma angle_label_on_trig_tab_witness :
  label_alpha
    (drawn (fst (run_page (M := F64_math Sample.libm) initialState
                   [SetActiveTab TabTrig])))
  = Some "α = NaN°".
Proof.
  exact (proj2 (proj2 (angle_label_on_trig_tab
           (fst (run_page (M := F64_math Sample.libm) initialState
                   [SetActiveTab TabTrig]))))
         eq_refl eq_refl).
Defined.


(** ** The diagram, in exact arithmetic *)

Local Open Scope R_scope.

Section ExactDiagram.
Variable show : R -> string.
Local Abbreviation NR := (Exact.number show).
Local Abbreviation VR := Exact_value.

Lemma exact_or_num_pos (x : R) (y : Exact.num) :
  x <> 0 -> or_num (V := VR) (Some x) y = Some x.
Proof.
  intros H. unfold or_num. cbn [truthy Exact_value Exact_truthy].
  destruct (Req_dec_T x 0); [ contradiction | reflexivity ].
Qed.

Lemma exact_or_num_zero (x : R) :
  or_num (V := VR) (Some x) (lit (JSNumber := NR) 0) = Some x.
Proof.
  unfold or_num. cbn [truthy Exact_value Exact_truthy lit Exact.number].
  destruct (Req_dec_T x 0) as [-> | _]; reflexivity.
Qed.

(** The side the diagram scales by. *)
Lemma exact_maxSide (a b : R) (c : Exact.num) (angleA : option Exact.num) :
  0 <= a -> 0 <= b ->
  exists m,
    maxSide (TriangleVisualizer (N := NR) (V := VR) (Some a) (Some b) c angleA)
    = Some m /\ 0 < m /\ a <= m /\ b <= m /\
    (forall z, c = Some z -> 0 < z -> a <= z -> b <= z -> m = z).
Proof.
  intros Ha Hb. cbn [TriangleVisualizer maxSide].
  set (c0 := match c with Some z => z | None => 0 end).
  assert (E : Math_max (JSValue := VR) (Some a) (Some b)
                (if isNaN (JSNumber := NR) c then lit (JSNumber := NR) 0 else c)
              = Some (Rmax (Rmax a b) c0)).
  { destruct c; reflexivity. }
  rewrite E. clear E.
  pose proof (Rmax_l (Rmax a b) c0). pose proof (Rmax_l a b).
  pose proof (Rmax_r a b). pose proof (Rmax_r (Rmax a b) c0).
  unfold or_num. cbn [truthy Exact_value Exact_truthy lit Exact.number].
  destruct (Req_dec_T (Rmax (Rmax a b) c0) 0) as [Z | NZ].
  - exists 1. repeat split; try lra.
    intros z -> Hz _ _. unfold c0 in *. lra.
  - exists (Rmax (Rmax a b) c0). repeat split; try lra.
    intros z -> Hz Haz Hbz. unfold c0.
    rewrite Rmax_right; [ reflexivity | ]. apply Rmax_lub; assumption.
Qed.

Lemma exact_diagram (a b : R) (c : Exact.num) (angleA : option Exact.num) m :
  maxSide (TriangleVisualizer (N := NR) (V := VR) (Some a) (Some b) c angleA)
  = Some m -> m <> 0 ->
  TriangleVisualizer (N := NR) (V := VR) (Some a) (Some b) c angleA
  = let w := b * (150 / m) in
    let h := a * (150 / m) in
    {| maxSide := Some m;
       scale := Some (150 / m);
       width := Some w;
       height := Some h;
       pathData :=
         "M " ++ show 25 ++ " " ++ show (200 - 25)
         ++ " L " ++ show (25 + w) ++ " " ++ show (200 - 25)
         ++ " L " ++ show 25 ++ " " ++ show (200 - 25 - h) ++ " Z";
       at_b := (Some (25 + w / 2), Some (200 - 25 + 18));
       at_a := (Some (25 - 18), Some (200 - 25 - h / 2));
       at_c := (Some (25 + w / 2 + 10), Some (200 - 25 - h / 2 - 10));
       at_alpha := (Some (25 + w - 25), Some (200 - 25 - 5));
       label_b := "b = " ++ Exact.toFixed show (Some b) 1;
       label_a := "a = " ++ Exact.toFixed show (Some a) 1;
       label_c := "c = " ++ Exact.toFixed show c 1;
       label_alpha :=
         match angleA with
         | Some g => Some ("α = " ++ Exact.toFixed show g 1 ++ "°")
         | None => None
         end;
       tile_a := Exact.toFixed show (Some a) 2;
       tile_b := Exact.toFixed show (Some b) 2;
       tile_c := Exact.toFixed show c 2 |}.
Proof.
  intros E Hm. unfold TriangleVisualizer in *. cbn [maxSide] in E.
  rewrite E.
  cbn [div mul add sub lit toString toFixed Exact.number Exact.lift2
       Exact.toString].
  rewrite (exact_div 150 m Hm). cbn [Exact.lift2].
  rewrite !exact_div by lra. reflexivity.
Qed.
End ExactDiagram.

Lemma pyth_value_stored {num : Type}
  (o : Outcome (Pyth.Result num)) (v : num) :
  pyth_value o = Some v -> exists r, o = SetResult r /\ Pyth.val r = v.
Proof.
  destruct o as [| msg | r]; cbn; try discriminate.
  intros E. injection E as <-. now exists r.
Qed.

Section ExactPage.
Variable show : R -> string.
Local Abbreviation NR := (Exact.number show).
Local Abbreviation MR := Exact.math.
Local Abbreviation VR := Exact_value.

Lemma exact_scaled (a b z : R) (angleA : option Exact.num) :
  0 < a < z -> 0 < b < z -> a * a + b * b = z * z ->
  exists w h,
    maxSide (TriangleVisualizer (N := NR) (V := VR)
               (Some a) (Some b) (Some z) angleA) = Some z /\
    width (TriangleVisualizer (N := NR) (V := VR)
             (Some a) (Some b) (Some z) angleA) = Some w /\
    height (TriangleVisualizer (N := NR) (V := VR)
              (Some a) (Some b) (Some z) angleA) = Some h /\
    0 < w < 150 /\ 0 < h < 150 /\ w * w + h * h = 150 * 150.
Proof.
  intros Ha Hb Hq.
  destruct (exact_maxSide show a b (Some z) angleA) as [m [E [Hm [_ [_ Hz]]]]];
    try lra.
  rewrite (Hz z eq_refl) in E by lra.
  rewrite (exact_diagram show a b (Some z) angleA z E) by lra.
  cbv zeta. cbn [maxSide width height].
  exists (b * (150 / z)), (a * (150 / z)).
  assert (Hk : 150 / z * z = 150) by (field; lra).
  assert (Hk0 : 0 < 150 / z) by (apply Rdiv_lt_0_compat; lra).
  split; [ reflexivity | split; [ reflexivity | split; [ reflexivity | ] ] ].
  split; [ split; nra | split; [ split; nra | ] ].
  replace (b * (150 / z) * (b * (150 / z)) + a * (150 / z) * (a * (150 / z)))
    with (150 / z * (150 / z) * (a * a + b * b)) by ring.
  rewrite Hq.
  replace (150 / z * (150 / z) * (z * z)) with (150 / z * z * (150 / z * z))
    by ring.
  rewrite Hk. reflexivity.
Qed.

Lemma exact_trig_triangle (angle v : R) (side : Side) :
  0 < angle < 90 -> 0 < v ->
  exists (r : Trig.Result Exact.num) (a b c : R),
    calculateTrig (N := NR) (M := MR) (Some angle) side (Some v) = SetResult r /\
    Trig.a r = Some a /\ Trig.b r = Some b /\ Trig.c r = Some c /\
    0 < a < c /\ 0 < b < c /\ a * a + b * b = c * c.
Proof.
  intros Hang Hv.
  destruct (exact_trig_values show angle side v Hang)
    as [r [E [_ [_ [_ Hsides]]]]].
  pose proof (theta_range angle Hang) as Ht.
  destruct (sin_cos_tan_acute _ Ht) as [Hs [Hc Htan]].
  destruct (acute_triangle _ v Ht Hv) as [[C1 C2] [[A1 A2] [B1 B2]]].
  pose proof (sin2_cos2 (angle * PI / 180)) as P. unfold Rsqr in P.
  exists r.
  destruct side; destruct Hsides as [H1 [H2 H3]].
  - exists v, (v / Rtrigo1.tan (angle * PI / 180)),
           (v / Rtrigo_def.sin (angle * PI / 180)).
    repeat (split; [ assumption || lra | ]).
    unfold Rtrigo1.tan. field_simplify_eq; [ nra | lra ].
  - exists (v * Rtrigo1.tan (angle * PI / 180)), v,
           (v / Rtrigo_def.cos (angle * PI / 180)).
    repeat (split; [ assumption || lra | ]).
    unfold Rtrigo1.tan. field_simplify_eq; [ nra | lra ].
  - exists (v * Rtrigo_def.sin (angle * PI / 180)),
           (v * Rtrigo_def.cos (angle * PI / 180)), v.
    repeat (split; [ assumption || lra | ]).
    nra.
Qed.

(** X1: in exact arithmetic, for sides a, b that are not negative and any
    third prop (NaN included), [TriangleVisualizer] scales by a positive
    [maxSide], draws the legs with width [b * 150 / maxSide] and height
    [a * 150 / maxSide], both between 0 and 150, so that the three corners of
    the path and the anchors of the four labels all lie inside the 200 by 200
    [viewBox]. *)
Theorem diagram_inside_viewbox
  (a b : R) (c : Exact.num) (angleA : option Exact.num) :
  0 <= a -> 0 <= b ->
  exists m w h,
    maxSide (TriangleVisualizer (N := NR) (V := VR) (Some a) (Some b) c angleA)
    = Some m /\
    width (TriangleVisualizer (N := NR) (V := VR) (Some a) (Some b) c angleA)
    = Some w /\
    height (TriangleVisualizer (N := NR) (V := VR) (Some a) (Some b) c angleA)
    = Some h /\
    0 < m /\ w = b * (150 / m) /\ h = a * (150 / m) /\
    0 <= w <= 150 /\ 0 <= h <= 150 /\
    pathData (TriangleVisualizer (N := NR) (V := VR)
                (Some a) (Some b) c angleA)
    = "M " ++ show 25 ++ " " ++ show (200 - 25)
      ++ " L " ++ show (25 + w) ++ " " ++ show (200 - 25)
      ++ " L " ++ show 25 ++ " " ++ show (200 - 25 - h) ++ " Z" /\
    in_viewbox (at_b (TriangleVisualizer (N := NR) (V := VR)
                        (Some a) (Some b) c angleA)) /\
    in_viewbox (at_a (TriangleVisualizer (N := NR) (V := VR)
                        (Some a) (Some b) c angleA)) /\
    in_viewbox (at_c (TriangleVisualizer (N := NR) (V := VR)
                        (Some a) (Some b) c angleA)) /\
    in_viewbox (at_alpha (TriangleVisualizer (N := NR) (V := VR)
                            (Some a) (Some b) c angleA)).
Proof.
  intros Ha Hb.
  destruct (exact_maxSide show a b c angleA Ha Hb) as [m [E [Hm [Ham [Hbm _]]]]].
  rewrite (exact_diagram show a b c angleA m E) by lra.
  cbv zeta. cbn [maxSide width height pathData at_a at_b at_c at_alpha].
  exists m, (b * (150 / m)), (a * (150 / m)).
  assert (Hk : 150 / m * m = 150) by (field; lra).
  assert (Hk0 : 0 < 150 / m) by (apply Rdiv_lt_0_compat; lra).
  assert (Hw : 0 <= b * (150 / m) <= 150) by (split; nra).
  assert (Hh : 0 <= a * (150 / m) <= 150) by (split; nra).
  repeat split; try reflexivity; try lra.
Qed.

(** X3: in exact arithmetic, on the Pythagoras tab with a and c entered
    (0 < a < c) and b blank, after "Calcular" the diagram is given the
    computed leg [sqrt(c*c - a*a)] as its c, shorter than the c entered, and
    0 as its b: the triangle is drawn with width 0. *)
Theorem leg_result_drawn_as_hypotenuse (st : AppState Exact.num) (a c : R) :
  activeTab st = TabPythagoras ->
  pythA st = Some a -> pythB st = None -> pythC st = Some c ->
  0 < a < c ->
  exists st',
    step_page (N := NR) (M := MR) st ClickPythagoras = (st', []) /\
    visualizerProps (N := NR) (V := VR) st'
    = (Some a, Some 0, Some (sqrt (c * c - a * a)), None) /\
    sqrt (c * c - a * a) < c /\
    width (drawn (N := NR) (V := VR) st') = Some 0.
Proof.
  intros Htab HA HB HC Hac.
  destruct (pyth_value_stored _ _ (exact_pyth_ac show a c ltac:(lra)))
    as [r [E Hv]].
  exists (with_pythResult st r).
  assert (Hprops : visualizerProps (N := NR) (V := VR) (with_pythResult st r)
                   = (Some a, Some 0, Some (sqrt (c * c - a * a)), None)).
  { unfold visualizerProps.
    cbn [with_pythResult activeTab pythA pythB pythC pythResult option_map opt_or].
    rewrite Htab, HA, HB, HC, Hv.
    assert (Hs : 0 < sqrt (c * c - a * a)) by (apply sqrt_lt_R0; nra).
    rewrite (exact_or_num_pos (sqrt (c * c - a * a))) by lra.
    rewrite !exact_or_num_zero. reflexivity. }
  split; [ | split; [ exact Hprops | split ] ].
  - cbn [step_page]. rewrite HA, HB, HC, E. reflexivity.
  - pose proof (sqrt_pos (c * c - a * a)).
    pose proof (sqrt_sqrt (c * c - a * a) ltac:(nra)). nra.
  - unfold drawn. rewrite Hprops.
    destruct (exact_maxSide show a 0 (Some (sqrt (c * c - a * a))) None)
      as [m [Em [Hm _]]]; try lra.
    rewrite (exact_diagram show a 0 _ None m Em) by lra.
    cbv zeta. cbn [width]. f_equal. ring.
Qed.

(** X4: in exact arithmetic, on the Pythagoras tab with positive a and b
    entered, after "Calcular" the diagram is given a, b and the computed
    hypotenuse, scales by the hypotenuse, and draws legs of width w and
    height h strictly between 0 and 150 with w*w + h*h = 150*150. *)
Theorem hypotenuse_result_drawn_to_scale
  (st : AppState Exact.num) (a b : R) :
  activeTab st = TabPythagoras ->
  pythA st = Some a -> pythB st = Some b ->
  0 < a -> 0 < b ->
  exists st' w h,
    step_page (N := NR) (M := MR) st ClickPythagoras = (st', []) /\
    visualizerProps (N := NR) (V := VR) st'
    = (Some a, Some b, Some (sqrt (a * a + b * b)), None) /\
    maxSide (drawn (N := NR) (V := VR) st') = Some (sqrt (a * a + b * b)) /\
    width (drawn (N := NR) (V := VR) st') = Some w /\
    height (drawn (N := NR) (V := VR) st') = Some h /\
    0 < w < 150 /\ 0 < h < 150 /\ w * w + h * h = 150 * 150.
Proof.
  intros Htab HA HB Ha Hb.
  destruct (pyth_value_stored _ _ (exact_pyth_ab show a b (pythC st)))
    as [r [E Hv]].
  pose proof (sqrt_pos (a * a + b * b)) as Hp.
  pose proof (sqrt_sqrt (a * a + b * b) ltac:(nra)) as Hq.
  assert (Hprops : visualizerProps (N := NR) (V := VR) (with_pythResult st r)
                   = (Some a, Some b, Some (sqrt (a * a + b * b)), None)).
  { unfold visualizerProps.
    cbn [with_pythResult activeTab pythA pythB pythC pythResult option_map opt_or].
    rewrite Htab, HA, HB, Hv.
    rewrite (exact_or_num_pos (sqrt (a * a + b * b))) by nra.
    rewrite !exact_or_num_zero. reflexivity. }
  destruct (exact_scaled a b (sqrt (a * a + b * b)) None)
    as [w [h [Em [Ew [Eh [Hw [Hh Hwh]]]]]]]; try nra.
  exists (with_pythResult st r), w, h.
  split; [ | split; [ exact Hprops | ] ].
  - cbn [step_page]. rewrite HA, HB, E. reflexivity.
  - unfold drawn. rewrite Hprops. auto 10.
Qed.

(** X5: in exact arithmetic, on the trig tab with an angle strictly between
    0 and 90 and a positive side value, after "Calcular" the diagram is given
    the three stored sides and the angle, scales by the hypotenuse c, and
    draws legs of width w and height h strictly between 0 and 150 with
    w*w + h*h = 150*150. *)
Theorem trig_result_drawn_to_scale
  (st : AppState Exact.num) (angle v : R) :
  activeTab st = TabTrig ->
  trigAngle st = Some angle -> trigSideVal st = Some v ->
  0 < angle < 90 -> 0 < v ->
  exists st' r a b c w h,
    step_page (N := NR) (M := MR) st ClickTrig = (st', []) /\
    trigResult st' = Some r /\
    Trig.a r = Some a /\ Trig.b r = Some b /\ Trig.c r = Some c /\
    visualizerProps (N := NR) (V := VR) st'
    = (Some a, Some b, Some c, Some (Some angle)) /\
    maxSide (drawn (N := NR) (V := VR) st') = Some c /\
    width (drawn (N := NR) (V := VR) st') = Some w /\
    height (drawn (N := NR) (V := VR) st') = Some h /\
    0 < w < 150 /\ 0 < h < 150 /\ w * w + h * h = 150 * 150.
Proof.
  intros Htab HG HV Hang Hv.
  destruct (exact_trig_triangle angle v (trigSideType st) Hang Hv)
    as [r [a [b [c [E [Ea [Eb [Ec [Ha [Hb Hq]]]]]]]]]].
  assert (Hprops : visualizerProps (N := NR) (V := VR) (with_trigResult st r)
                   = (Some a, Some b, Some c, Some (Some angle))).
  { unfold visualizerProps.
    cbn [with_trigResult activeTab trigResult trigAngle option_map opt_or].
    rewrite Htab, HG, Ea, Eb, Ec.
    rewrite !exact_or_num_pos by lra. reflexivity. }
  destruct (exact_scaled a b c (Some (Some angle)))
    as [w [h [Em [Ew [Eh [Hw [Hh Hwh]]]]]]]; try lra.
  exists (with_trigResult st r), r, a, b, c, w, h.
  split; [ | split; [ reflexivity | ] ].
  - cbn [step_page]. rewrite HG, HV, E. reflexivity.
  - repeat (split; [ assumption | ]).
    unfold drawn. rewrite Hprops. auto 10.
Qed.
End ExactPage.

Lemma diagram_inside_viewbox_witness :
  in_viewbox
    (at_c (TriangleVisualizer (N := Exact.number mute) (V := Exact_value)
             (Some 3) (Some 4) (Some 5) None)).
Proof.
  destruct (diagram_inside_viewbox mute 3 4 (Some 5) None
              ltac:(lra) ltac:(lra))
    as [m [w [h [_ [_ [_ [_ [_ [_ [_ [_ [_ [_ [_ [H _]]]]]]]]]]]]]]].
  exact H.
Defined.

Lemma leg_result_drawn_as_hypotenuse_witness :
  exists st',
    step_page (N := Exact.number mute) (M := Exact.math)
      (fst (run_page (N := Exact.number mute) (M := Exact.math)
              (initialState (V := Exact_value))
              [SetPythA (Some 3); SetPythC (Some 5)]))
      ClickPythagoras = (st', []) /\
    visualizerProps (N := Exact.number mute) (V := Exact_value) st'
    = (Some 3, Some 0, Some (sqrt (5 * 5 - 3 * 3)), None) /\
    sqrt (5 * 5 - 3 * 3) < 5 /\
    width (drawn (N := Exact.number mute) (V := Exact_value) st') = Some 0.
Proof.
  apply leg_result_drawn_as_hypotenuse; try reflexivity. lra.
Defined.

Lemma hypotenuse_result_drawn_to_scale_witness :
  exists st' w h,
    step_page (N := Exact.number mute) (M := Exact.math)
      (fst (run_page (N := Exact.number mute) (M := Exact.math)
              (initialState (V := Exact_value))
              [SetPythA (Some 3); SetPythB (Some 4)]))
      ClickPythagoras = (st', []) /\
    visualizerProps (N := Exact.number mute) (V := Exact_value) st'
    = (Some 3, Some 4, Some (sqrt (3 * 3 + 4 * 4)), None) /\
    maxSide (drawn (N := Exact.number mute) (V := Exact_value) st')
    = Some (sqrt (3 * 3 + 4 * 4)) /\
    width (drawn (N := Exact.number mute) (V := Exact_value) st') = Some w /\
    height (drawn (N := Exact.number mute) (V := Exact_value) st') = Some h /\
    0 < w < 150 /\ 0 < h < 150 /\ w * w + h * h = 150 * 150.
Proof.
  apply hypotenuse_result_drawn_to_scale; try reflexivity; lra.
Defined.

Lemma trig_result_drawn_to_scale_witness :
  exists st' r a b c w h,
    step_page (N := Exact.number mute) (M := Exact.math)
      (fst (run_page (N := Exact.number mute) (M := Exact.math)
              (initialState (V := Exact_value))
              [SetActiveTab TabTrig; SetTrigAngle (Some 30);
               SetTrigSideVal (Some 10)]))
      ClickTrig = (st', []) /\
    trigResult st' = Some r /\
    Trig.a r = Some a /\ Trig.b r = Some b /\ Trig.c r = Some c /\
    visualizerProps (N := Exact.number mute) (V := Exact_value) st'
    = (Some a, Some b, Some c, Some (Some 30)) /\
    maxSide (drawn (N := Exact.number mute) (V := Exact_value) st') = Some c /\
    width (drawn (N := Exact.number mute) (V := Exact_value) st') = Some w /\
    height (drawn (N := Exact.number mute) (V := Exact_value) st') = Some h /\
    0 < w < 150 /\ 0 < h < 150 /\ w * w + h * h = 150 * 150.
Proof.
  apply (trig_result_drawn_to_scale mute _ 30 10); try reflexivity; lra.
Defined.

Local Close Scope R_scope.
